(** * Rule evaluation core of the transaction-processor service

    Shallow embedding of [is_valid_transaction] (app.py) and of the rule
    chain duplicated in [main] (run_feature_store.py), with the properties
    of the ordered rule chain, of the per-field default substitution and of
    the fail-closed error handling.

    Conventions of the embedding
    - a Python number (int, bool, finite float) is a rational [Q]: Python
      compares int and float by exact value, and doubling is exact as
      long as it does not overflow; float overflow is outside the model;
    - [float('nan')], the null of a pandas numeric column, is the separate
      value [VNaN];
    - a dict is a [gmap] with string keys, a DataFrame is a [gmap] from
      column names to the list of the cells of that column;
    - a raised exception is the left injection of a sum, [try/except] is a
      match on it. *)

From Stdlib Require Import QArith.
From stdpp Require Import gmap strings.

Local Open Scope string_scope.

(** ** Python values *)

Inductive pyval : Type :=
  | VNone
  | VNum (q : Q)
  | VNaN
  | VStr (s : string).

(** Exceptions that the body of [is_valid_transaction] can meet: the
    [TypeError] of an operator applied to operands it does not support, and
    whatever the profile provider raises (connection, query file, query). *)
Inductive exn : Type :=
  | TypeError (op : string) (l r : pyval)
  | ProviderError (text : string).

Definition result (A : Type) : Type := exn + A.

Definition ret {A} (a : A) : result A := inr a.
Definition raise {A} (e : exn) : result A := inl e.
Definition bind {A B} (m : result A) (k : A -> result B) : result B :=
  match m with
  | inl e => inl e
  | inr a => k a
  end.

Notation "x <- m ;; k" := (bind m (fun x => k))
  (at level 100, m at next level, right associativity).

(** [2 * v] *)
Definition py_double (v : pyval) : result pyval :=
  match v with
  | VNum q => ret (VNum (2 * q)%Q)
  | VNaN => ret VNaN
  | VStr s => ret (VStr (s +:+ s))
  | VNone => raise (TypeError "*" (VNum 2) VNone)
  end.

(** [l > r] *)
Definition py_gt (l r : pyval) : result bool :=
  match l, r with
  | VNum a, VNum b => ret (negb (Qle_bool a b))
  | VNum _, VNaN | VNaN, VNum _ | VNaN, VNaN => ret false
  | VStr a, VStr b => ret (String.ltb b a)
  | _, _ => raise (TypeError ">" l r)
  end.

(** [l >= r] *)
Definition py_ge (l r : pyval) : result bool :=
  match l, r with
  | VNum a, VNum b => ret (Qle_bool b a)
  | VNum _, VNaN | VNaN, VNum _ | VNaN, VNaN => ret false
  | VStr a, VStr b => ret (String.leb b a)
  | _, _ => raise (TypeError ">=" l r)
  end.

(** ** Data of the service *)

(** The JSON object of the request. *)
Abbreviation Payload := (gmap string pyval).

(** A DataFrame: column name to the cells of the column, first row first. *)
Abbreviation DataFrame := (gmap string (list pyval)).

(** The six locals of [is_valid_transaction] after default substitution. *)
Record features : Type := Features {
  distinct_cards_2_weeks : pyval;
  txns_by_user_last_1h_hour : pyval;
  num_cbk_card_bin_7d_percent : pyval;
  avg_txns_by_user_1h : pyval;
  avg_transaction_amount_7d : pyval;
  user_cbk_count_lifetime_percent : pyval
}.

(** [payload.get(key, default)] *)
Definition payload_get (payload : Payload) (key : string) (dflt : pyval) : pyval :=
  default dflt (payload !! key).

(** [user_profile.get(col)]: the column as a Series, or [None]. *)
Definition frame_get (user_profile : DataFrame) (col : string) : option (list pyval) :=
  user_profile !! col.

(** ** app.py *)

(** [safe_get_scalar(series, default)]. A Series always has [iloc], so the
    last [return series] of the source is not reached. *)
Definition safe_get_scalar (series : option (list pyval)) (dflt : pyval) : pyval :=
  match series with
  | None => dflt
  | Some [] => dflt
  | Some (x :: _) =>
      match x with
      | VNone => dflt
      | _ => x
      end
  end.

(** Lines 41-46: the six lookups with their defaults. *)
Definition resolve_profile (user_profile : DataFrame) : features :=
  {| distinct_cards_2_weeks :=
       safe_get_scalar (frame_get user_profile "distinct_cards_2_weeks") (VNum 1);
     txns_by_user_last_1h_hour :=
       safe_get_scalar (frame_get user_profile "txns_by_user_last_1h_hour") (VNum 20);
     num_cbk_card_bin_7d_percent :=
       safe_get_scalar (frame_get user_profile "num_cbk_card_bin_7d_percent") (VNum 0);
     avg_txns_by_user_1h :=
       safe_get_scalar (frame_get user_profile "avg_txns_by_user_1h") (VNum 20);
     avg_transaction_amount_7d :=
       safe_get_scalar (frame_get user_profile "avg_transaction_amount_7d") (VNum 10000);
     user_cbk_count_lifetime_percent :=
       safe_get_scalar (frame_get user_profile "user_cbk_count_lifetime_percent") (VNum 0) |}.

Definition history_reason := "Transaction denied due to high chargeback history".
Definition volume_reason := "Transaction denied due to high transaction volume".
Definition value_reason := "Transaction denied due to high transaction value".
Definition cards_reason := "Transaction denied due to multiple cards used recently".
Definition card_type_reason := "Transaction denied due to high chargeback rate for card type".
Definition approved_reason := "Transaction approved".

(** Lines 48-59: the [if/elif] chain. Each condition is evaluated only when
    the ones above it were false; an operator may raise. *)
Definition rule_chain (transaction_amount : pyval) (f : features)
  : result (bool * string) :=
  c1 <- py_gt (user_cbk_count_lifetime_percent f) (VNum 0) ;;
  if c1 : bool then ret (false, history_reason) else
  t2 <- py_double (avg_txns_by_user_1h f) ;;
  c2 <- py_ge (txns_by_user_last_1h_hour f) t2 ;;
  if c2 : bool then ret (false, volume_reason) else
  t3 <- py_double (avg_transaction_amount_7d f) ;;
  c3 <- py_ge transaction_amount t3 ;;
  if c3 : bool then ret (false, value_reason) else
  c4 <- py_ge (distinct_cards_2_weeks f) (VNum 3) ;;
  if c4 : bool then ret (false, cards_reason) else
  c5 <- py_ge (num_cbk_card_bin_7d_percent f) (VNum (1 # 2)) ;;
  if c5 : bool then ret (false, card_type_reason) else
  ret (true, approved_reason).

(** The profile provider: connection, query file and query of lines 27-32,
    as a function of the [user_id] spliced into the query text. It returns
    the DataFrame of the rows found, or raises. *)
Abbreviation Provider := (pyval -> result DataFrame).

(** The body of the [try]. *)
Definition is_valid_transaction_body (payload : Payload) (query_to_dataframe : Provider)
  : result (bool * string) :=
  let transaction_amount := payload_get payload "transaction_amount" (VNum 0) in
  let user_id := payload_get payload "user_id" (VNum 0) in
  user_profile <- query_to_dataframe user_id ;;
  rule_chain transaction_amount (resolve_profile user_profile).

Section Evaluator.

(** [str(e)]: the text the interpreter or the database driver gives an
    exception. *)
Variable str : exn -> string.

Definition is_valid_transaction (payload : Payload) (query_to_dataframe : Provider)
  : bool * string :=
  match is_valid_transaction_body payload query_to_dataframe with
  | inr result => (result.1, result.2)
  | inl e => (false, "Processing error: " +:+ str e)
  end.

End Evaluator.

(** ** run_feature_store.py *)

(** [user_profile.get(col)[0] if user_profile.get(col) else 0] on the dict
    of lists that [to_dict(orient='list')] gives: a missing column and an
    empty list are falsy. *)
Definition first_or_zero (col : option (list pyval)) : pyval :=
  match col with
  | Some (x :: _) => x
  | _ => VNum 0
  end.

(** Lines 47-58: the chain of the runner; its third rule is commented out. *)
Definition runner_chain (user_profile : DataFrame) : result (bool * string) :=
  let distinct_cards_2_weeks := first_or_zero (user_profile !! "distinct_cards_2_weeks") in
  let txns_by_user_last_1h_hour := first_or_zero (user_profile !! "txns_by_user_last_1h_hour") in
  let num_cbk_card_bin_7d_percent := first_or_zero (user_profile !! "num_cbk_card_bin_7d_percent") in
  let avg_txns_by_user_1h := first_or_zero (user_profile !! "avg_txns_by_user_1h") in
  let user_cbk_count_lifetime_percent := first_or_zero (user_profile !! "user_cbk_count_lifetime_percent") in
  c1 <- py_gt user_cbk_count_lifetime_percent (VNum 0) ;;
  if c1 : bool then ret (false, history_reason) else
  t2 <- py_double avg_txns_by_user_1h ;;
  c2 <- py_ge txns_by_user_last_1h_hour t2 ;;
  if c2 : bool then ret (false, volume_reason) else
  c4 <- py_ge distinct_cards_2_weeks (VNum 3) ;;
  if c4 : bool then ret (false, cards_reason) else
  c5 <- py_ge num_cbk_card_bin_7d_percent (VNum (1 # 2)) ;;
  if c5 : bool then ret (false, card_type_reason) else
  ret (true, approved_reason).

(** [main()]: the query is for user 7; any exception is printed and the
    function returns [None]. *)
Definition main (query_to_dataframe : Provider) : option (bool * string) :=
  match (user_profile <- query_to_dataframe (VNum 7) ;; runner_chain user_profile) with
  | inr result => Some result
  | inl _ => None
  end.

(** ** The rule chain as the specification words it

    The profile after default substitution has six numeric fields; the
    verdict is given by the first rule of the ordered list whose condition
    holds. *)

Module Spec.

Record UserProfile : Type := {
  distinct_cards_2_weeks : Q;
  txns_by_user_last_1h_hour : Q;
  num_cbk_card_bin_7d_percent : Q;
  avg_txns_by_user_1h : Q;
  avg_transaction_amount_7d : Q;
  user_cbk_count_lifetime_percent : Q
}.

Definition rule1 (p : UserProfile) : Prop :=
  (0 < user_cbk_count_lifetime_percent p)%Q.
Definition rule2 (p : UserProfile) : Prop :=
  (2 * avg_txns_by_user_1h p <= txns_by_user_last_1h_hour p)%Q.
Definition rule3 (transaction_amount : Q) (p : UserProfile) : Prop :=
  (2 * avg_transaction_amount_7d p <= transaction_amount)%Q.
Definition rule4 (p : UserProfile) : Prop :=
  (3 <= distinct_cards_2_weeks p)%Q.
Definition rule5 (p : UserProfile) : Prop :=
  ((1 # 2) <= num_cbk_card_bin_7d_percent p)%Q.

Inductive evaluate (transaction_amount : Q) (p : UserProfile) : bool * string -> Prop :=
  | deny_history :
      rule1 p ->
      evaluate transaction_amount p
        (false, "Transaction denied due to high chargeback history")
  | deny_volume :
      ~ rule1 p -> rule2 p ->
      evaluate transaction_amount p
        (false, "Transaction denied due to high transaction volume")
  | deny_value :
      ~ rule1 p -> ~ rule2 p -> rule3 transaction_amount p ->
      evaluate transaction_amount p
        (false, "Transaction denied due to high transaction value")
  | deny_cards :
      ~ rule1 p -> ~ rule2 p -> ~ rule3 transaction_amount p -> rule4 p ->
      evaluate transaction_amount p
        (false, "Transaction denied due to multiple cards used recently")
  | deny_card_type :
      ~ rule1 p -> ~ rule2 p -> ~ rule3 transaction_amount p -> ~ rule4 p ->
      rule5 p ->
      evaluate transaction_amount p
        (false, "Transaction denied due to high chargeback rate for card type")
  | approve :
      ~ rule1 p -> ~ rule2 p -> ~ rule3 transaction_amount p -> ~ rule4 p ->
      ~ rule5 p ->
      evaluate transaction_amount p (true, "Transaction approved").

(** The explicit default profile of the data model. *)
Definition default_profile : UserProfile :=
  {| distinct_cards_2_weeks := 1;
     txns_by_user_last_1h_hour := 20;
     num_cbk_card_bin_7d_percent := 0;
     avg_txns_by_user_1h := 20;
     avg_transaction_amount_7d := 10000;
     user_cbk_count_lifetime_percent := 0 |}.

End Spec.

(** The locals of the evaluator when every field is the number of [p]. *)
Definition numeric (p : Spec.UserProfile) : features :=
  {| distinct_cards_2_weeks := VNum (Spec.distinct_cards_2_weeks p);
     txns_by_user_last_1h_hour := VNum (Spec.txns_by_user_last_1h_hour p);
     num_cbk_card_bin_7d_percent := VNum (Spec.num_cbk_card_bin_7d_percent p);
     avg_txns_by_user_1h := VNum (Spec.avg_txns_by_user_1h p);
     avg_transaction_amount_7d := VNum (Spec.avg_transaction_amount_7d p);
     user_cbk_count_lifetime_percent := VNum (Spec.user_cbk_count_lifetime_percent p) |}.

(** ** Vocabulary of the properties *)

(** What an evaluation reads: the amount of the request and the profile
    resolved from the answer of the provider (or the exception it raised). *)
Definition fetched_profile (payload : Payload) (query : Provider) : result features :=
  user_profile <- query (payload_get payload "user_id" (VNum 0)) ;;
  ret (resolve_profile user_profile).

(** The columns the evaluator reads. *)
Definition profile_columns : list string :=
  [ "distinct_cards_2_weeks"; "txns_by_user_last_1h_hour";
    "num_cbk_card_bin_7d_percent"; "avg_txns_by_user_1h";
    "avg_transaction_amount_7d"; "user_cbk_count_lifetime_percent" ].

(** A field without a source value: the column is missing, it has no row,
    or the cell of the first row is [None]. *)
Definition absent (series : option (list pyval)) : Prop :=
  series = None \/ series = Some [] \/ exists rows, series = Some (VNone :: rows).

(** The verdicts the chain can return. *)
Definition chain_verdicts : list (bool * string) :=
  [ (false, "Transaction denied due to high chargeback history");
    (false, "Transaction denied due to high transaction volume");
    (false, "Transaction denied due to high transaction value");
    (false, "Transaction denied due to multiple cards used recently");
    (false, "Transaction denied due to high chargeback rate for card type");
    (true, "Transaction approved") ].

(** The reason strings of the interface. *)
Definition reason_strings : list string :=
  [ "Transaction approved";
    "Transaction denied due to high chargeback history";
    "Transaction denied due to high transaction volume";
    "Transaction denied due to high transaction value";
    "Transaction denied due to multiple cards used recently";
    "Transaction denied due to high chargeback rate for card type" ].

(** ** Concrete requests and profiles *)

(** A DataFrame of one row holding the six columns. *)
Definition one_row (f : features) : DataFrame :=
  <["distinct_cards_2_weeks" := [distinct_cards_2_weeks f]]>
  (<["txns_by_user_last_1h_hour" := [txns_by_user_last_1h_hour f]]>
  (<["num_cbk_card_bin_7d_percent" := [num_cbk_card_bin_7d_percent f]]>
  (<["avg_txns_by_user_1h" := [avg_txns_by_user_1h f]]>
  (<["avg_transaction_amount_7d" := [avg_transaction_amount_7d f]]>
  (<["user_cbk_count_lifetime_percent" := [user_cbk_count_lifetime_percent f]]> ∅))))).

(** The DataFrame of a query that found no row: no row and no column. *)
Definition no_row : DataFrame := ∅.

(** A provider that finds the same rows for every user. *)
Definition found (user_profile : DataFrame) : Provider := fun _ => ret user_profile.

(** A provider that fails. *)
Definition unreachable (text : string) : Provider := fun _ => raise (ProviderError text).

(** A request body with the fields the service requires. *)
Definition request (user_id transaction_amount : pyval) : Payload :=
  <["transaction_id" := VNum 2342357]>
  (<["merchant_id" := VNum 29744]>
  (<["user_id" := user_id]>
  (<["card_number" := VStr "434505******9116"]>
  (<["transaction_date" := VStr "2019-11-31T23:16:32.812632"]>
  (<["transaction_amount" := transaction_amount]>
  (<["device_id" := VNum 285475]> ∅)))))).

(** A rendering of exceptions, for running the evaluator on examples. *)
Definition type_name (v : pyval) : string :=
  match v with
  | VNone => "NoneType"
  | VNum _ => "number"
  | VNaN => "float"
  | VStr _ => "str"
  end.

Definition show_exn (e : exn) : string :=
  match e with
  | TypeError op l r =>
      "'" +:+ op +:+ "' not supported between instances of '"
      +:+ type_name l +:+ "' and '" +:+ type_name r +:+ "'"
  | ProviderError text => text
  end.

(** ** app.py: the endpoint

    [evaluate_transaction], the caller of [is_valid_transaction]. *)

(** What [request.get_json()] returns when the body parses: any JSON
    document. An object is a dict and an array a list; null, a number, a
    boolean (a number in Python) and a string are the scalars. The values
    of an object and the items of an array are scalars. *)
Inductive Body : Type :=
  | BodyObject (payload : Payload)
  | BodyList (items : list pyval)
  | BodyValue (v : pyval).

(** The exceptions the endpoint raises on a body that is not an object: the
    [TypeError] of [field not in payload] on a value that is not iterable,
    and the [AttributeError] of [payload.get] on a list or a string. *)
Inductive endpoint_exn : Type :=
  | NotIterable (v : pyval)
  | NoAttributeGet (body : Body).

(** A request: whether its content type is JSON, and what [get_json]
    gives, the parsed body or the text of the exception it raises. *)
Record Request : Type := {
  is_json : bool;
  get_json : string + Body
}.

(** A response: the JSON object given to [jsonify] and the status code. *)
Abbreviation Response := (gmap string pyval * Z)%type.

Definition required_fields : list string :=
  [ "transaction_id"; "merchant_id"; "user_id"; "card_number";
    "transaction_date"; "transaction_amount"; "device_id" ].

(** [sub in s] on strings: [sub] occurs in [s]. *)
Fixpoint contains (sub s : string) : bool :=
  String.prefix sub s ||
  match s with
  | EmptyString => false
  | String _ rest => contains sub rest
  end.

(** [field not in payload]: a key of a dict, an item of a list, a substring
    of a string; any other value is not iterable. *)
Definition field_not_in (field : string) (payload : Body) : endpoint_exn + bool :=
  match payload with
  | BodyObject payload =>
      inr (match payload !! field with None => true | Some _ => false end)
  | BodyList items =>
      inr (negb (existsb (fun item => match item with
                                      | VStr s => String.eqb s field
                                      | _ => false
                                      end) items))
  | BodyValue (VStr s) => inr (negb (contains field s))
  | BodyValue v => inl (NotIterable v)
  end.

(** [[field for field in fields if field not in payload]], left to right. *)
Fixpoint missing_among (fields : list string) (payload : Body)
  : endpoint_exn + list string :=
  match fields with
  | [] => inr []
  | field :: rest =>
      match field_not_in field payload with
      | inl e => inl e
      | inr is_missing =>
          match missing_among rest payload with
          | inl e => inl e
          | inr missing => inr (if is_missing : bool then field :: missing else missing)
          end
      end
  end.

Definition missing_fields (payload : Body) : endpoint_exn + list string :=
  missing_among required_fields payload.

Section Endpoint.

Variable str : exn -> string.

(** [str(e)] for the exceptions of the endpoint. *)
Variable str_error : endpoint_exn -> string.

(** [datetime.utcnow().isoformat()] at the time of the call. *)
Variable utcnow : string.

(** How the f-string renders the transaction identifier. *)
Variable format_value : pyval -> string.

(** [print(line)]: [None] when the line is written, the text of the
    exception when writing it raises. *)
Variable print : string -> option string.

(** The line of the log. *)
Definition log_line (transaction_id : pyval) (recommendation reason : string) : string :=
  "Transaction " +:+ format_value transaction_id +:+ ": " +:+ recommendation
  +:+ " - " +:+ reason.

(** The answer of the [except] branch. *)
Definition internal_error (message : string) : Response :=
  (<["error" := VStr "Internal server error"]> {[ "message" := VStr message ]},
   500%Z).

Definition evaluate_transaction (query_to_dataframe : Provider) (request : Request)
  : Response :=
  if negb (is_json request) then
    ({[ "error" := VStr "Request must be JSON" ]}, 400%Z)
  else
    match get_json request with
    | inl message => internal_error message
    | inr payload =>
        match missing_fields payload with
        | inl e => internal_error (str_error e)
        | inr (field :: rest) =>
            ({[ "error" := VStr ("Missing required fields: "
                                 +:+ String.concat ", " (field :: rest)) ]},
             400%Z)
        | inr [] =>
            match payload with
            | BodyObject payload =>
                let transaction_id := payload_get payload "transaction_id" VNone in
                let '(is_approved, reason) :=
                  is_valid_transaction str payload query_to_dataframe in
                let recommendation := if is_approved then "approve" else "deny" in
                match print (log_line transaction_id recommendation reason) with
                | Some message => internal_error message
                | None =>
                    (<["transaction_id" := transaction_id]>
                     (<["recommendation" := VStr recommendation]>
                     (<["reason" := VStr reason]>
                     {[ "timestamp" := VStr utcnow ]})), 200%Z)
                end
            | _ => internal_error (str_error (NoAttributeGet payload))
            end
        end
    end.

End Endpoint.

(** The first cell of a column of a DataFrame, when there is one. *)
Definition first_cell (user_profile : DataFrame) (col : string) : option pyval :=
  match user_profile !! col with
  | Some (x :: _) => Some x
  | _ => None
  end.

(** The columns the runner reads. *)
Definition runner_columns : list string :=
  [ "distinct_cards_2_weeks"; "txns_by_user_last_1h_hour";
    "num_cbk_card_bin_7d_percent"; "avg_txns_by_user_1h";
    "user_cbk_count_lifetime_percent" ].

(** A request carrying a JSON object. *)
Definition json_request (payload : Payload) : Request :=
  {| is_json := true; get_json := inr (BodyObject payload) |}.

(** Renderings for running the endpoint on examples, and a log that can
    always be written. *)
Definition show_error (e : endpoint_exn) : string :=
  match e with
  | NotIterable _ => "argument is not iterable"
  | NoAttributeGet _ => "object has no attribute 'get'"
  end.

Definition show_value (v : pyval) : string :=
  match v with
  | VStr s => s
  | _ => type_name v
  end.

Definition printed : string -> option string := fun _ => None.

(** * Properties *)

(** One step of a chain: the operator raised, or its test is decided. *)
Ltac chain_step :=
  match goal with
  | |- context [bind ?m _] =>
      let e := fresh "e" in
      destruct m as [e | []]; simpl; try discriminate
  end.

(** ** Arithmetic of the comparisons *)

Lemma Qle_bool_true (a b : Q) : Qle_bool a b = true <-> (a <= b)%Q.
Proof. apply Qle_bool_iff. Qed.

Lemma Qle_bool_false (a b : Q) : Qle_bool a b = false <-> ~ (a <= b)%Q.
Proof.
  rewrite <- Qle_bool_iff. destruct (Qle_bool a b); split; intros H;
    try discriminate; try reflexivity.
  exfalso. apply H. reflexivity.
Qed.

Lemma py_gt_zero (q : Q) :
  py_gt (VNum q) (VNum 0) = ret (negb (Qle_bool q 0)).
Proof. reflexivity. Qed.

Lemma gt_zero_true (q : Q) : negb (Qle_bool q 0) = true <-> (0 < q)%Q.
Proof.
  rewrite negb_true_iff, Qle_bool_false. split.
  - apply Qnot_le_lt.
  - apply Qlt_not_le.
Qed.

Lemma gt_zero_false (q : Q) : negb (Qle_bool q 0) = false <-> ~ (0 < q)%Q.
Proof.
  rewrite negb_false_iff, Qle_bool_true. split.
  - apply Qle_not_lt.
  - apply Qnot_lt_le.
Qed.

(** ** The evaluator on a resolved profile *)

(** When the provider answers, the verdict is the one of the chain on the
    resolved profile, or the processing error of what the chain raised. *)
Lemma is_valid_transaction_found str (payload : Payload) (query : Provider)
    (user_profile : DataFrame) :
  query (payload_get payload "user_id" (VNum 0)) = inr user_profile ->
  is_valid_transaction str payload query =
    match rule_chain (payload_get payload "transaction_amount" (VNum 0))
                     (resolve_profile user_profile) with
    | inr v => v
    | inl e => (false, "Processing error: " +:+ str e)
    end.
Proof.
  intros Hq. unfold is_valid_transaction, is_valid_transaction_body.
  rewrite Hq. simpl.
  destruct (rule_chain _ _) as [e | [b r]]; reflexivity.
Qed.

(** On numeric operands no operator raises: the chain returns a verdict,
    and it is a verdict of the ordered list of the specification. *)
Lemma rule_chain_numeric (transaction_amount : Q) (p : Spec.UserProfile) :
  exists v, rule_chain (VNum transaction_amount) (numeric p) = inr v
            /\ Spec.evaluate transaction_amount p v.
Proof.
  unfold rule_chain, numeric; simpl.
  destruct (negb (Qle_bool (Spec.user_cbk_count_lifetime_percent p) 0)) eqn:H1; simpl.
  { eexists; split; [reflexivity |]. apply Spec.deny_history.
    apply gt_zero_true, H1. }
  apply gt_zero_false in H1.
  destruct (Qle_bool (2 * Spec.avg_txns_by_user_1h p)
              (Spec.txns_by_user_last_1h_hour p)) eqn:H2; simpl.
  { eexists; split; [reflexivity |]. apply Spec.deny_volume; [exact H1 |].
    apply Qle_bool_true, H2. }
  apply Qle_bool_false in H2.
  destruct (Qle_bool (2 * Spec.avg_transaction_amount_7d p) transaction_amount)
    eqn:H3; simpl.
  { eexists; split; [reflexivity |]. apply Spec.deny_value; [exact H1 | exact H2 |].
    apply Qle_bool_true, H3. }
  apply Qle_bool_false in H3.
  destruct (Qle_bool 3 (Spec.distinct_cards_2_weeks p)) eqn:H4; simpl.
  { eexists; split; [reflexivity |].
    apply Spec.deny_cards; [exact H1 | exact H2 | exact H3 |].
    apply Qle_bool_true, H4. }
  apply Qle_bool_false in H4.
  destruct (Qle_bool (1 # 2) (Spec.num_cbk_card_bin_7d_percent p)) eqn:H5; simpl.
  { eexists; split; [reflexivity |].
    apply Spec.deny_card_type; [exact H1 | exact H2 | exact H3 | exact H4 |].
    apply Qle_bool_true, H5. }
  apply Qle_bool_false in H5.
  eexists; split; [reflexivity |].
  apply Spec.approve; assumption.
Qed.

(** The ordered list determines one verdict. *)
Lemma evaluate_functional (transaction_amount : Q) (p : Spec.UserProfile)
    (v w : bool * string) :
  Spec.evaluate transaction_amount p v ->
  Spec.evaluate transaction_amount p w ->
  v = w.
Proof.
  intros Hv Hw. destruct Hv; destruct Hw; try reflexivity; contradiction.
Qed.

(** The verdict on numeric inputs satisfies the ordered list. *)
Lemma numeric_verdict str (payload : Payload) (query : Provider)
    (user_profile : DataFrame) (transaction_amount : Q) (p : Spec.UserProfile) :
  payload_get payload "transaction_amount" (VNum 0) = VNum transaction_amount ->
  query (payload_get payload "user_id" (VNum 0)) = inr user_profile ->
  resolve_profile user_profile = numeric p ->
  Spec.evaluate transaction_amount p (is_valid_transaction str payload query).
Proof.
  intros Ha Hq Hp.
  rewrite (is_valid_transaction_found str payload query user_profile Hq), Ha, Hp.
  destruct (rule_chain_numeric transaction_amount p) as (w & -> & Hw). exact Hw.
Qed.

(** C1. For every numeric transaction amount and every profile whose six
    fields resolve to numbers, the verdict that [is_valid_transaction]
    returns is exactly the verdict of the six-step ordered chain: the first
    rule whose condition holds decides, and approval is what remains. *)
Theorem is_valid_transaction_ordered_chain str (payload : Payload) (query : Provider)
    (user_profile : DataFrame) (transaction_amount : Q) (p : Spec.UserProfile) :
  payload_get payload "transaction_amount" (VNum 0) = VNum transaction_amount ->
  query (payload_get payload "user_id" (VNum 0)) = inr user_profile ->
  resolve_profile user_profile = numeric p ->
  forall v : bool * string,
    Spec.evaluate transaction_amount p v <->
    is_valid_transaction str payload query = v.
Proof.
  intros Ha Hq Hp v.
  pose proof (numeric_verdict str payload query user_profile transaction_amount p
                Ha Hq Hp) as Hw.
  split.
  - intros Hv. apply (evaluate_functional transaction_amount p); assumption.
  - intros <-. exact Hw.
Qed.

Lemma is_valid_transaction_ordered_chain_witness :
  Spec.evaluate 25000 Spec.default_profile
    (false, "Transaction denied due to high transaction value") <->
  is_valid_transaction show_exn (request (VNum 7) (VNum 25000))
    (found (one_row (numeric Spec.default_profile)))
  = (false, "Transaction denied due to high transaction value").
Proof.
  apply (is_valid_transaction_ordered_chain show_exn
           (request (VNum 7) (VNum 25000))
           (found (one_row (numeric Spec.default_profile)))
           (one_row (numeric Spec.default_profile)) 25000 Spec.default_profile);
    vm_compute; reflexivity.
Defined.

(** ** Rule 1 comes first *)

Lemma rule_chain_history (transaction_amount : pyval) (f : features) (c : Q) :
  user_cbk_count_lifetime_percent f = VNum c ->
  (0 < c)%Q ->
  rule_chain transaction_amount f = inr (false, history_reason).
Proof.
  intros Hc Hpos. unfold rule_chain. rewrite Hc, py_gt_zero.
  apply gt_zero_true in Hpos. rewrite Hpos. reflexivity.
Qed.

(** C2. A profile whose lifetime chargeback ratio is positive is denied for
    chargeback history, whatever the transaction amount and the other five
    fields are (numbers or not); so when rule 3 would match too, the reason
    is rule 1's and not rule 3's. *)
Theorem chargeback_history_first str (payload : Payload) (query : Provider)
    (user_profile : DataFrame) (c : Q) :
  query (payload_get payload "user_id" (VNum 0)) = inr user_profile ->
  user_cbk_count_lifetime_percent (resolve_profile user_profile) = VNum c ->
  (0 < c)%Q ->
  is_valid_transaction str payload query
    = (false, "Transaction denied due to high chargeback history")
  /\ (is_valid_transaction str payload query).2
       <> "Transaction denied due to high transaction value".
Proof.
  intros Hq Hc Hpos.
  rewrite (is_valid_transaction_found str payload query user_profile Hq).
  rewrite (rule_chain_history _ _ c Hc Hpos).
  split; [reflexivity | discriminate].
Qed.

(** Chargeback ratio 0.1 and an amount of 25000 against the default weekly
    average of 10000: rules 1 and 3 both hold. *)
Lemma chargeback_history_first_witness :
  is_valid_transaction show_exn (request (VNum 7) (VNum 25000))
    (found (<["user_cbk_count_lifetime_percent" := [VNum (1 # 10)]]> no_row))
    = (false, "Transaction denied due to high chargeback history")
  /\ (is_valid_transaction show_exn (request (VNum 7) (VNum 25000))
       (found (<["user_cbk_count_lifetime_percent" := [VNum (1 # 10)]]> no_row))).2
       <> "Transaction denied due to high transaction value".
Proof.
  apply (chargeback_history_first show_exn (request (VNum 7) (VNum 25000))
           (found (<["user_cbk_count_lifetime_percent" := [VNum (1 # 10)]]> no_row))
           (<["user_cbk_count_lifetime_percent" := [VNum (1 # 10)]]> no_row)
           (1 # 10)).
  - reflexivity.
  - vm_compute. reflexivity.
  - reflexivity.
Defined.

(** ** A zero hourly average *)

(** C10. With no chargeback history and an hourly average of zero, every
    non-negative count of transactions in the last hour reaches twice the
    average: the verdict is the denial for transaction volume for every
    transaction amount, and approval cannot be reached. *)
Theorem zero_average_denies_volume str (payload : Payload) (query : Provider)
    (user_profile : DataFrame) (c a t : Q) :
  query (payload_get payload "user_id" (VNum 0)) = inr user_profile ->
  user_cbk_count_lifetime_percent (resolve_profile user_profile) = VNum c ->
  avg_txns_by_user_1h (resolve_profile user_profile) = VNum a ->
  txns_by_user_last_1h_hour (resolve_profile user_profile) = VNum t ->
  (c <= 0)%Q -> (a == 0)%Q -> (0 <= t)%Q ->
  is_valid_transaction str payload query
    = (false, "Transaction denied due to high transaction volume").
Proof.
  intros Hq Hc Ha Ht Hc0 Ha0 Ht0.
  rewrite (is_valid_transaction_found str payload query user_profile Hq).
  unfold rule_chain. rewrite Hc, Ha, Ht, py_gt_zero.
  assert (H1 : negb (Qle_bool c 0) = false).
  { apply gt_zero_false. apply Qle_not_lt, Hc0. }
  rewrite H1. simpl.
  assert (H2 : Qle_bool (2 * a) t = true).
  { apply Qle_bool_true. rewrite Ha0. exact Ht0. }
  rewrite H2. reflexivity.
Qed.

Lemma zero_average_denies_volume_witness :
  is_valid_transaction show_exn (request (VNum 7) (VNum 100))
    (found (<["avg_txns_by_user_1h" := [VNum 0]]>
            (<["txns_by_user_last_1h_hour" := [VNum 0]]> no_row)))
    = (false, "Transaction denied due to high transaction volume").
Proof.
  apply (zero_average_denies_volume show_exn (request (VNum 7) (VNum 100))
           (found (<["avg_txns_by_user_1h" := [VNum 0]]>
                   (<["txns_by_user_last_1h_hour" := [VNum 0]]> no_row)))
           (<["avg_txns_by_user_1h" := [VNum 0]]>
            (<["txns_by_user_last_1h_hour" := [VNum 0]]> no_row))
           0 0 0).
  - reflexivity.
  - vm_compute. reflexivity.
  - vm_compute. reflexivity.
  - vm_compute. reflexivity.
  - discriminate.
  - reflexivity.
  - discriminate.
Defined.

(** ** Thresholds *)

Lemma evaluate_inv_volume (transaction_amount : Q) (p : Spec.UserProfile) (v : bool * string) :
  Spec.evaluate transaction_amount p v ->
  ~ Spec.rule1 p ->
  (v = (false, "Transaction denied due to high transaction volume") <-> Spec.rule2 p).
Proof.
  intros Hv H1. split.
  - intros ->. inversion Hv; assumption.
  - intros H2. apply (evaluate_functional transaction_amount p); [exact Hv |].
    apply Spec.deny_volume; assumption.
Qed.

Lemma evaluate_inv_cards (transaction_amount : Q) (p : Spec.UserProfile) (v : bool * string) :
  Spec.evaluate transaction_amount p v ->
  ~ Spec.rule1 p -> ~ Spec.rule2 p -> ~ Spec.rule3 transaction_amount p ->
  (v = (false, "Transaction denied due to multiple cards used recently") <-> Spec.rule4 p).
Proof.
  intros Hv H1 H2 H3. split.
  - intros ->. inversion Hv; assumption.
  - intros H4. apply (evaluate_functional transaction_amount p); [exact Hv |].
    apply Spec.deny_cards; assumption.
Qed.

Lemma evaluate_inv_card_type (transaction_amount : Q) (p : Spec.UserProfile) (v : bool * string) :
  Spec.evaluate transaction_amount p v ->
  ~ Spec.rule1 p -> ~ Spec.rule2 p -> ~ Spec.rule3 transaction_amount p ->
  ~ Spec.rule4 p ->
  (v = (false, "Transaction denied due to high chargeback rate for card type")
   <-> Spec.rule5 p).
Proof.
  intros Hv H1 H2 H3 H4. split.
  - intros ->. inversion Hv; assumption.
  - intros H5. apply (evaluate_functional transaction_amount p); [exact Hv |].
    apply Spec.deny_card_type; assumption.
Qed.

(** C5. The thresholds are inclusive and exact. When no earlier rule
    matches: a count of the last hour equal to twice the hourly average is
    denied by rule 2, three distinct cards are denied by rule 4, a card-type
    chargeback ratio of one half is denied by rule 5; and each of these
    denials is returned exactly when its comparison holds on the rational
    values, with no tolerance on either side. *)
Theorem thresholds_inclusive str (payload : Payload) (query : Provider)
    (user_profile : DataFrame) (transaction_amount : Q) (p : Spec.UserProfile) :
  payload_get payload "transaction_amount" (VNum 0) = VNum transaction_amount ->
  query (payload_get payload "user_id" (VNum 0)) = inr user_profile ->
  resolve_profile user_profile = numeric p ->
  let verdict := is_valid_transaction str payload query in
  (~ Spec.rule1 p ->
   (Spec.txns_by_user_last_1h_hour p == 2 * Spec.avg_txns_by_user_1h p)%Q ->
   verdict = (false, "Transaction denied due to high transaction volume"))
  /\ (~ Spec.rule1 p -> ~ Spec.rule2 p -> ~ Spec.rule3 transaction_amount p ->
      (Spec.distinct_cards_2_weeks p == 3)%Q ->
      verdict = (false, "Transaction denied due to multiple cards used recently"))
  /\ (~ Spec.rule1 p -> ~ Spec.rule2 p -> ~ Spec.rule3 transaction_amount p ->
      ~ Spec.rule4 p ->
      (Spec.num_cbk_card_bin_7d_percent p == 1 # 2)%Q ->
      verdict = (false, "Transaction denied due to high chargeback rate for card type"))
  /\ (~ Spec.rule1 p ->
      (verdict = (false, "Transaction denied due to high transaction volume")
       <-> (2 * Spec.avg_txns_by_user_1h p <= Spec.txns_by_user_last_1h_hour p)%Q))
  /\ (~ Spec.rule1 p -> ~ Spec.rule2 p -> ~ Spec.rule3 transaction_amount p ->
      (verdict = (false, "Transaction denied due to multiple cards used recently")
       <-> (3 <= Spec.distinct_cards_2_weeks p)%Q))
  /\ (~ Spec.rule1 p -> ~ Spec.rule2 p -> ~ Spec.rule3 transaction_amount p ->
      ~ Spec.rule4 p ->
      (verdict = (false, "Transaction denied due to high chargeback rate for card type")
       <-> ((1 # 2) <= Spec.num_cbk_card_bin_7d_percent p)%Q)).
Proof.
  intros Ha Hq Hp verdict.
  pose proof (numeric_verdict str payload query user_profile transaction_amount p
                Ha Hq Hp) as Hv.
  fold verdict in Hv.
  split; [| split; [| split; [| split; [| split]]]].
  - intros H1 Heq. apply (evaluate_inv_volume transaction_amount p verdict Hv H1).
    unfold Spec.rule2. rewrite Heq. apply Qle_refl.
  - intros H1 H2 H3 Heq.
    apply (evaluate_inv_cards transaction_amount p verdict Hv H1 H2 H3).
    unfold Spec.rule4. rewrite Heq. apply Qle_refl.
  - intros H1 H2 H3 H4 Heq.
    apply (evaluate_inv_card_type transaction_amount p verdict Hv H1 H2 H3 H4).
    unfold Spec.rule5. rewrite Heq. apply Qle_refl.
  - intros H1. exact (evaluate_inv_volume transaction_amount p verdict Hv H1).
  - intros H1 H2 H3.
    exact (evaluate_inv_cards transaction_amount p verdict Hv H1 H2 H3).
  - intros H1 H2 H3 H4.
    exact (evaluate_inv_card_type transaction_amount p verdict Hv H1 H2 H3 H4).
Qed.

(** The three boundaries, each on the default profile with one field moved
    onto its threshold. *)
Lemma thresholds_inclusive_witness :
  is_valid_transaction show_exn (request (VNum 7) (VNum 100))
    (found (<["txns_by_user_last_1h_hour" := [VNum 40]]>
            (one_row (numeric Spec.default_profile))))
    = (false, "Transaction denied due to high transaction volume")
  /\ is_valid_transaction show_exn (request (VNum 7) (VNum 100))
       (found (<["distinct_cards_2_weeks" := [VNum 3]]>
               (one_row (numeric Spec.default_profile))))
    = (false, "Transaction denied due to multiple cards used recently")
  /\ is_valid_transaction show_exn (request (VNum 7) (VNum 100))
       (found (<["num_cbk_card_bin_7d_percent" := [VNum (1 # 2)]]>
               (one_row (numeric Spec.default_profile))))
    = (false, "Transaction denied due to high chargeback rate for card type").
Proof.
  split; [| split].
  - apply (thresholds_inclusive show_exn (request (VNum 7) (VNum 100))
             (found (<["txns_by_user_last_1h_hour" := [VNum 40]]>
                     (one_row (numeric Spec.default_profile))))
             (<["txns_by_user_last_1h_hour" := [VNum 40]]>
              (one_row (numeric Spec.default_profile)))
             100
             {| Spec.distinct_cards_2_weeks := 1;
                Spec.txns_by_user_last_1h_hour := 40;
                Spec.num_cbk_card_bin_7d_percent := 0;
                Spec.avg_txns_by_user_1h := 20;
                Spec.avg_transaction_amount_7d := 10000;
                Spec.user_cbk_count_lifetime_percent := 0 |});
      try (vm_compute; reflexivity); vm_compute; congruence.
  - apply (thresholds_inclusive show_exn (request (VNum 7) (VNum 100))
             (found (<["distinct_cards_2_weeks" := [VNum 3]]>
                     (one_row (numeric Spec.default_profile))))
             (<["distinct_cards_2_weeks" := [VNum 3]]>
              (one_row (numeric Spec.default_profile)))
             100
             {| Spec.distinct_cards_2_weeks := 3;
                Spec.txns_by_user_last_1h_hour := 20;
                Spec.num_cbk_card_bin_7d_percent := 0;
                Spec.avg_txns_by_user_1h := 20;
                Spec.avg_transaction_amount_7d := 10000;
                Spec.user_cbk_count_lifetime_percent := 0 |});
      try (vm_compute; reflexivity); vm_compute; congruence.
  - apply (thresholds_inclusive show_exn (request (VNum 7) (VNum 100))
             (found (<["num_cbk_card_bin_7d_percent" := [VNum (1 # 2)]]>
                     (one_row (numeric Spec.default_profile))))
             (<["num_cbk_card_bin_7d_percent" := [VNum (1 # 2)]]>
              (one_row (numeric Spec.default_profile)))
             100
             {| Spec.distinct_cards_2_weeks := 1;
                Spec.txns_by_user_last_1h_hour := 20;
                Spec.num_cbk_card_bin_7d_percent := 1 # 2;
                Spec.avg_txns_by_user_1h := 20;
                Spec.avg_transaction_amount_7d := 10000;
                Spec.user_cbk_count_lifetime_percent := 0 |});
      try (vm_compute; reflexivity); vm_compute; congruence.
Defined.

(** ** Reasons and failures *)

Lemma rule_chain_verdicts (transaction_amount : pyval) (f : features) (v : bool * string) :
  rule_chain transaction_amount f = inr v -> In v chain_verdicts.
Proof.
  unfold rule_chain, chain_verdicts, ret.
  repeat (chain_step; try (intros [= <-]; simpl; tauto)).
Qed.

(** The evaluator returns the verdict of its body, or the denial built from
    the exception the body raised. *)
Lemma is_valid_transaction_cases str (payload : Payload) (query : Provider) :
  (exists v, is_valid_transaction_body payload query = inr v
             /\ is_valid_transaction str payload query = v
             /\ In v chain_verdicts)
  \/ (exists e, is_valid_transaction_body payload query = inl e
                /\ is_valid_transaction str payload query
                   = (false, "Processing error: " +:+ str e)).
Proof.
  unfold is_valid_transaction.
  destruct (is_valid_transaction_body payload query) as [e | [b r]] eqn:Hbody.
  - right. exists e. split; reflexivity.
  - left. exists (b, r). split; [reflexivity | split; [reflexivity |]].
    unfold is_valid_transaction_body in Hbody.
    destruct (query _) as [e | user_profile]; [discriminate |].
    simpl in Hbody. apply (rule_chain_verdicts _ _ _ Hbody).
Qed.

(** C7. The reason of every verdict is one of the six fixed strings or the
    processing-error text followed by the text of the exception; nothing
    else is produced. *)
Theorem reason_in_closed_set str (payload : Payload) (query : Provider) :
  In (is_valid_transaction str payload query).2 reason_strings
  \/ exists e : exn,
       (is_valid_transaction str payload query).2 = "Processing error: " +:+ str e.
Proof.
  destruct (is_valid_transaction_cases str payload query)
    as [(v & _ & -> & Hin) | (e & _ & ->)].
  - left. unfold chain_verdicts in Hin. unfold reason_strings. simpl in Hin.
    destruct Hin as [<- | [<- | [<- | [<- | [<- | [<- | []]]]]]]; simpl; tauto.
  - right. exists e. reflexivity.
Qed.

(** C6, as the code has it. No exception leaves the evaluator: its result
    is always a verdict, the one its body computed when nothing raised and,
    when anything in the body raised, the denial whose reason is the
    processing-error text followed by the text of the exception. This is
    what happens when the profile fetch raises, and when an amount that is
    null or text reaches its comparison with a numeric average. An
    exception never gives an approval: the verdict approves exactly when
    the rule chain returned the approval, and its reason is a processing
    error exactly when the body raised. Values that are not numbers are not
    checked as such. *)
Theorem fail_closed str (payload : Payload) (query : Provider) :
  ((exists v, is_valid_transaction_body payload query = inr v
              /\ is_valid_transaction str payload query = v)
   \/ (exists e, is_valid_transaction_body payload query = inl e
                 /\ is_valid_transaction str payload query
                    = (false, "Processing error: " +:+ str e)))
  /\ (forall e,
        query (payload_get payload "user_id" (VNum 0)) = inl e ->
        is_valid_transaction str payload query
          = (false, "Processing error: " +:+ str e))
  /\ (forall (user_profile : DataFrame) (p : Spec.UserProfile),
        query (payload_get payload "user_id" (VNum 0)) = inr user_profile ->
        resolve_profile user_profile = numeric p ->
        ~ Spec.rule1 p -> ~ Spec.rule2 p ->
        payload_get payload "transaction_amount" (VNum 0) = VNone
        \/ (exists s, payload_get payload "transaction_amount" (VNum 0) = VStr s) ->
        is_valid_transaction str payload query
          = (false, "Processing error: " +:+
               str (TypeError ">=" (payload_get payload "transaction_amount" (VNum 0))
                      (VNum (2 * Spec.avg_transaction_amount_7d p)))))
  /\ ((is_valid_transaction str payload query).1 = true <->
      is_valid_transaction_body payload query = inr (true, "Transaction approved"))
  /\ ((exists e, is_valid_transaction_body payload query = inl e) <->
      (exists text, (is_valid_transaction str payload query).2
                    = "Processing error: " +:+ text)).
Proof.
  split; [| split; [| split; [| split]]].
  - destruct (is_valid_transaction_cases str payload query)
      as [(v & Hb & Hv & _) | (e & Hb & Hv)].
    + left. exists v. split; assumption.
    + right. exists e. split; assumption.
  - intros e He. unfold is_valid_transaction, is_valid_transaction_body.
    rewrite He. reflexivity.
  - intros user_profile p Hq Hp H1 H2 Hamount.
    rewrite (is_valid_transaction_found str payload query user_profile Hq), Hp.
    unfold rule_chain, numeric; simpl.
    apply gt_zero_false in H1. rewrite H1. simpl.
    apply Qle_bool_false in H2. rewrite H2. simpl.
    destruct Hamount as [-> | [s ->]]; reflexivity.
  - split.
    + intros Happroved.
      destruct (is_valid_transaction_cases str payload query)
        as [(v & Hb & Hv & Hin) | (e & _ & Hv)].
      * rewrite Hb. f_equal. rewrite Hv in Happroved.
        unfold chain_verdicts in Hin. simpl in Hin.
        destruct Hin as [<- | [<- | [<- | [<- | [<- | [<- | []]]]]]];
          simpl in Happroved; try discriminate. reflexivity.
      * rewrite Hv in Happroved. discriminate.
    + intros Hbody. unfold is_valid_transaction. rewrite Hbody. reflexivity.
  - split.
    + intros [e Hbody]. exists (str e).
      unfold is_valid_transaction. rewrite Hbody. reflexivity.
    + intros [text Hreason].
      destruct (is_valid_transaction_cases str payload query)
        as [(v & Hb & Hv & Hin) | (e & Hb & _)]; [| eauto].
      exfalso. rewrite Hv in Hreason.
      unfold chain_verdicts in Hin. simpl in Hin.
      destruct Hin as [<- | [<- | [<- | [<- | [<- | [<- | []]]]]]];
        simpl in Hreason; discriminate Hreason.
Qed.

(** A provider that cannot be reached, and an amount sent as text. *)
Lemma fail_closed_witness :
  is_valid_transaction show_exn (request (VNum 7) (VNum 100))
    (unreachable "connection refused")
    = (false, "Processing error: connection refused")
  /\ is_valid_transaction show_exn (request (VNum 7) (VStr "100"))
       (found (one_row (numeric Spec.default_profile)))
     = (false, "Processing error: '>=' not supported between instances of 'str' and 'number'").
Proof.
  split.
  - apply (proj1 (proj2
             (fail_closed show_exn (request (VNum 7) (VNum 100))
                (unreachable "connection refused")))
             (ProviderError "connection refused")).
    reflexivity.
  - apply (proj1 (proj2 (proj2
             (fail_closed show_exn (request (VNum 7) (VStr "100"))
                (found (one_row (numeric Spec.default_profile))))))
             (one_row (numeric Spec.default_profile)) Spec.default_profile).
    + reflexivity.
    + vm_compute. reflexivity.
    + vm_compute. congruence.
    + vm_compute. congruence.
    + right. exists "100". vm_compute. reflexivity.
Defined.

(** The claim of C6 fails on values that are not numbers and raise
    nothing: an amount sent as NaN is approved when no row is found, an
    amount sent as text is approved against a weekly average stored as
    text, and an amount sent as text on a profile with chargebacks is
    denied for the chargeback history, not with a processing error. *)
Lemma non_numeric_input_not_a_processing_error :
  is_valid_transaction show_exn (request (VNum 7) VNaN) (found no_row)
    = (true, "Transaction approved")
  /\ is_valid_transaction show_exn (request (VNum 7) (VStr "a"))
       (found (<["avg_transaction_amount_7d" := [VStr "b"]]> no_row))
     = (true, "Transaction approved")
  /\ is_valid_transaction show_exn (request (VNum 7) (VStr "a"))
       (found (<["user_cbk_count_lifetime_percent" := [VNum (1 # 10)]]> no_row))
     = (false, "Transaction denied due to high chargeback history").
Proof. repeat split; vm_compute; reflexivity. Qed.

(** ** Determinism *)

Lemma is_valid_transaction_body_fetched (payload : Payload) (query : Provider) :
  is_valid_transaction_body payload query =
    (f <- fetched_profile payload query ;;
     rule_chain (payload_get payload "transaction_amount" (VNum 0)) f).
Proof.
  unfold is_valid_transaction_body, fetched_profile.
  destruct (query _); reflexivity.
Qed.

(** C8. The verdict is a function of the transaction amount and of the
    fetched profile alone: two evaluations that read the same amount and
    the same profile return the same (approved, reason) pair, whatever else
    differs between the calls (other request fields, the provider, columns
    or rows the evaluator does not read); nothing is carried from one call
    to the next. *)
Theorem verdict_deterministic str (payload1 payload2 : Payload)
    (query1 query2 : Provider) :
  payload_get payload1 "transaction_amount" (VNum 0)
    = payload_get payload2 "transaction_amount" (VNum 0) ->
  fetched_profile payload1 query1 = fetched_profile payload2 query2 ->
  is_valid_transaction str payload1 query1 = is_valid_transaction str payload2 query2.
Proof.
  intros Hamount Hprofile. unfold is_valid_transaction.
  rewrite !is_valid_transaction_body_fetched, Hamount, Hprofile. reflexivity.
Qed.

(** Two requests of different users, one answered with no row and one with
    a row holding the defaults and an extra second row. *)
Lemma verdict_deterministic_witness :
  is_valid_transaction show_exn (request (VNum 7) (VNum 100)) (found no_row)
  = is_valid_transaction show_exn (request (VNum 8) (VNum 100))
      (found (<["distinct_cards_2_weeks" := [VNum 1; VNum 5]]>
              (one_row (numeric Spec.default_profile)))).
Proof.
  apply (verdict_deterministic show_exn (request (VNum 7) (VNum 100))
           (request (VNum 8) (VNum 100)) (found no_row)
           (found (<["distinct_cards_2_weeks" := [VNum 1; VNum 5]]>
                   (one_row (numeric Spec.default_profile))))).
  - reflexivity.
  - vm_compute. reflexivity.
Defined.

(** ** The copy of the chain in the runner *)

Lemma runner_chain_verdicts (user_profile : DataFrame) (v : bool * string) :
  runner_chain user_profile = inr v ->
  In v [ (false, "Transaction denied due to high chargeback history");
         (false, "Transaction denied due to high transaction volume");
         (false, "Transaction denied due to multiple cards used recently");
         (false, "Transaction denied due to high chargeback rate for card type");
         (true, "Transaction approved") ].
Proof.
  unfold runner_chain, ret.
  repeat (chain_step; try (intros [= <-]; simpl; tauto)).
Qed.

(** C9. The chain of the runner is not the chain of the service. It never
    gives the denial for transaction value; a missing or empty column
    becomes 0 in the runner, whatever the field, and a null first cell is
    used as it is, where the service substitutes the default of the field;
    and the two disagree on concrete inputs: with no row found the service
    approves an amount of 100 and the runner denies for volume, on the
    explicit default profile the service denies an amount of 25000 for its
    value and the runner approves, and on a row whose chargeback ratio is
    null the service approves while the runner ends on the exception. *)
Theorem runner_chain_diverges str :
  (forall query : Provider,
     main query <> Some (false, "Transaction denied due to high transaction value"))
  /\ (forall dflt : pyval,
        first_or_zero None = VNum 0 /\ safe_get_scalar None dflt = dflt)
  /\ (forall dflt : pyval,
        first_or_zero (Some []) = VNum 0 /\ safe_get_scalar (Some []) dflt = dflt)
  /\ (forall (dflt : pyval) (rows : list pyval),
        first_or_zero (Some (VNone :: rows)) = VNone
        /\ safe_get_scalar (Some (VNone :: rows)) dflt = dflt)
  /\ (is_valid_transaction str (request (VNum 7) (VNum 100)) (found no_row)
        = (true, "Transaction approved")
      /\ main (found no_row)
        = Some (false, "Transaction denied due to high transaction volume"))
  /\ (is_valid_transaction str (request (VNum 7) (VNum 25000))
        (found (one_row (numeric Spec.default_profile)))
        = (false, "Transaction denied due to high transaction value")
      /\ main (found (one_row (numeric Spec.default_profile)))
        = Some (true, "Transaction approved"))
  /\ (is_valid_transaction str (request (VNum 7) (VNum 100))
        (found (<["user_cbk_count_lifetime_percent" := [VNone]]>
                (one_row (numeric Spec.default_profile))))
        = (true, "Transaction approved")
      /\ main (found (<["user_cbk_count_lifetime_percent" := [VNone]]>
                      (one_row (numeric Spec.default_profile))))
        = None).
Proof.
  split; [| split; [| split; [| split; [| split; [| split]]]]].
  - intros query Hmain. unfold main in Hmain.
    destruct (query (VNum 7)) as [e | user_profile]; simpl in Hmain;
      [discriminate |].
    destruct (runner_chain user_profile) as [e | v] eqn:Hchain; [discriminate |].
    injection Hmain as ->.
    apply runner_chain_verdicts in Hchain. simpl in Hchain.
    destruct Hchain as [H | [H | [H | [H | [H | []]]]]]; discriminate.
  - intros dflt. split; reflexivity.
  - intros dflt. split; reflexivity.
  - intros dflt rows. split; reflexivity.
  - split; vm_compute; reflexivity.
  - split; vm_compute; reflexivity.
  - split; vm_compute; reflexivity.
Qed.

(** ** Default substitution *)

Lemma safe_get_scalar_absent (series : option (list pyval)) (dflt : pyval) :
  absent series -> safe_get_scalar series dflt = dflt.
Proof.
  intros [-> | [-> | [rows ->]]]; reflexivity.
Qed.

Lemma resolve_profile_absent (user_profile : DataFrame) :
  (forall col, In col profile_columns -> absent (frame_get user_profile col)) ->
  resolve_profile user_profile = numeric Spec.default_profile.
Proof.
  intros Habsent. unfold resolve_profile, numeric. simpl.
  rewrite !safe_get_scalar_absent by (apply Habsent; simpl; tauto).
  reflexivity.
Qed.

Lemma resolve_profile_default_row :
  resolve_profile (one_row (numeric Spec.default_profile))
  = numeric Spec.default_profile.
Proof. vm_compute. reflexivity. Qed.

(** The default profile against a numeric amount: only rule 3 can match. *)
Lemma default_profile_verdict (transaction_amount : Q) (v : bool * string) :
  Spec.evaluate transaction_amount Spec.default_profile v ->
  (v = (true, "Transaction approved") <-> (transaction_amount < 20000)%Q).
Proof.
  intros Hv. split.
  - intros ->. inversion Hv.
    match goal with
    | H3 : ~ Spec.rule3 _ _ |- _ => apply Qnot_le_lt in H3; exact H3
    end.
  - intros Hlt. apply (evaluate_functional transaction_amount Spec.default_profile);
      [exact Hv |].
    apply Spec.approve.
    + vm_compute. congruence.
    + vm_compute. congruence.
    + unfold Spec.rule3. apply Qlt_not_le. exact Hlt.
    + vm_compute. congruence.
    + vm_compute. congruence.
Qed.

(** C3, as the code has it. A profile whose six fields are all absent (no
    row found, or null cells) gives the same verdict as the explicit default
    profile for every request; and the default profile is approved, with
    reason "Transaction approved", exactly for the numeric amounts below
    20000, twice the default weekly average. *)
Theorem absent_profile_is_default_profile str (payload : Payload)
    (query1 query2 : Provider) (user_profile : DataFrame) :
  query1 (payload_get payload "user_id" (VNum 0)) = inr user_profile ->
  (forall col, In col profile_columns -> absent (frame_get user_profile col)) ->
  query2 (payload_get payload "user_id" (VNum 0))
    = inr (one_row (numeric Spec.default_profile)) ->
  is_valid_transaction str payload query1 = is_valid_transaction str payload query2
  /\ forall transaction_amount : Q,
       payload_get payload "transaction_amount" (VNum 0) = VNum transaction_amount ->
       (is_valid_transaction str payload query2 = (true, "Transaction approved")
        <-> (transaction_amount < 20000)%Q).
Proof.
  intros Hq1 Habsent Hq2. split.
  - rewrite (is_valid_transaction_found str payload query1 _ Hq1).
    rewrite (is_valid_transaction_found str payload query2 _ Hq2).
    rewrite (resolve_profile_absent user_profile Habsent).
    rewrite resolve_profile_default_row. reflexivity.
  - intros transaction_amount Ha.
    apply default_profile_verdict.
    apply (numeric_verdict str payload query2
             (one_row (numeric Spec.default_profile))
             transaction_amount Spec.default_profile Ha Hq2).
    apply resolve_profile_default_row.
Qed.

Lemma absent_profile_is_default_profile_witness :
  is_valid_transaction show_exn (request (VNum 7) (VNum 100)) (found no_row)
  = is_valid_transaction show_exn (request (VNum 7) (VNum 100))
      (found (one_row (numeric Spec.default_profile)))
  /\ forall transaction_amount : Q,
       payload_get (request (VNum 7) (VNum 100)) "transaction_amount" (VNum 0)
         = VNum transaction_amount ->
       (is_valid_transaction show_exn (request (VNum 7) (VNum 100))
          (found (one_row (numeric Spec.default_profile)))
          = (true, "Transaction approved")
        <-> (transaction_amount < 20000)%Q).
Proof.
  apply (absent_profile_is_default_profile show_exn (request (VNum 7) (VNum 100))
           (found no_row) (found (one_row (numeric Spec.default_profile))) no_row).
  - reflexivity.
  - intros col _. left. apply lookup_empty.
  - reflexivity.
Defined.

(** The claim of C3 on the explicit default profile fails at an amount of
    20000: rule 3 denies it. *)
Lemma default_profile_not_approved_at_20000 :
  is_valid_transaction show_exn (request (VNum 7) (VNum 20000))
    (found (one_row (numeric Spec.default_profile)))
  <> (true, "Transaction approved").
Proof. vm_compute. discriminate. Qed.

(** C4, at the input where the code departs from it. A first cell holding
    NaN is not [None]: [safe_get_scalar] returns it instead of the default
    of the field. With NaN as weekly average amount the comparison of rule 3
    is false, and an amount of 25000 is approved, where the default average
    of 10000 denies it for its value. *)
Theorem nan_cell_not_defaulted str :
  (forall (dflt : pyval) (rows : list pyval),
     safe_get_scalar (Some (VNaN :: rows)) dflt = VNaN)
  /\ avg_transaction_amount_7d
       (resolve_profile (<["avg_transaction_amount_7d" := [VNaN]]> no_row)) = VNaN
  /\ is_valid_transaction str (request (VNum 7) (VNum 25000))
       (found (<["avg_transaction_amount_7d" := [VNaN]]> no_row))
     = (true, "Transaction approved")
  /\ is_valid_transaction str (request (VNum 7) (VNum 25000))
       (found (<["avg_transaction_amount_7d" := [VNone]]> no_row))
     = (false, "Transaction denied due to high transaction value").
Proof.
  split; [| split; [| split]].
  - intros dflt rows. reflexivity.
  - vm_compute. reflexivity.
  - vm_compute. reflexivity.
  - vm_compute. reflexivity.
Qed.

(** * Further properties of the code *)

(** ** The endpoint *)

Lemma field_not_in_raises (field other : string) (payload : Body) (e : endpoint_exn) :
  field_not_in field payload = inl e -> field_not_in other payload = inl e.
Proof.
  destruct payload as [payload | items | v]; simpl; try discriminate.
  destruct v; simpl; try discriminate; intros H; exact H.
Qed.

Lemma missing_among_raises (fields : list string) (payload : Body) (e : endpoint_exn) :
  missing_among fields payload = inl e ->
  forall field, field_not_in field payload = inl e.
Proof.
  induction fields as [| f rest IH]; simpl; [discriminate |].
  destruct (field_not_in f payload) as [e' | is_missing] eqn:Hf.
  - intros [= <-] field. apply (field_not_in_raises f). exact Hf.
  - destruct (missing_among rest payload) as [e' | missing]; [| discriminate].
    intros [= <-]. apply IH. reflexivity.
Qed.

Lemma missing_among_spec (fields : list string) (payload : Body)
    (missing : list string) :
  missing_among fields payload = inr missing ->
  forall field,
    In field missing <-> In field fields /\ field_not_in field payload = inr true.
Proof.
  revert missing. induction fields as [| f rest IH]; simpl; intros missing.
  - intros [= <-] field. simpl. tauto.
  - destruct (field_not_in f payload) as [e | is_missing] eqn:Hf; [discriminate |].
    destruct (missing_among rest payload) as [e | found_missing]; [discriminate |].
    intros [= <-] field.
    specialize (IH found_missing eq_refl field).
    destruct is_missing; simpl; rewrite IH; split.
    + intros [<- | [Hin Hnot]]; [split; [left; reflexivity | exact Hf] |].
      split; [right; exact Hin | exact Hnot].
    + intros [[<- | Hin] Hnot]; [left; reflexivity | right; split; assumption].
    + intros [Hin Hnot]. split; [right; exact Hin | exact Hnot].
    + intros [[<- | Hin] Hnot]; [congruence | split; assumption].
Qed.

Lemma missing_among_nil (fields : list string) (payload : Body) :
  missing_among fields payload = inr []
  <-> forall field, In field fields -> field_not_in field payload = inr false.
Proof.
  induction fields as [| f rest IH]; simpl.
  - split; [intros _ field [] | reflexivity].
  - destruct (field_not_in f payload) as [e | is_missing] eqn:Hf.
    { split; [discriminate |]. intros H.
      specialize (H f (or_introl eq_refl)). congruence. }
    destruct (missing_among rest payload) as [e | missing] eqn:Hrest.
    { split; [discriminate |]. intros H.
      assert (Hnil : @inl endpoint_exn (list string) e = inr []).
      { apply IH. intros field Hin. apply H. right. exact Hin. }
      discriminate Hnil. }
    destruct is_missing.
    { split; [discriminate |]. intros H.
      specialize (H f (or_introl eq_refl)). congruence. }
    split.
    + intros [= ->] field [<- | Hin]; [exact Hf |].
      apply (proj1 IH eq_refl). exact Hin.
    + intros H. rewrite (proj2 IH); [reflexivity |].
      intros field Hin. apply H. right. exact Hin.
Qed.

Lemma field_not_in_object (field : string) (payload : Payload) :
  field_not_in field (BodyObject payload) = inr false <-> is_Some (payload !! field).
Proof.
  simpl. destruct (payload !! field); split; intros H; try discriminate H;
    try reflexivity; [eauto | destruct H as [v H]; discriminate H].
Qed.

Lemma missing_fields_object_nil (payload : Payload) :
  missing_fields (BodyObject payload) = inr []
  <-> forall field, In field required_fields -> is_Some (payload !! field).
Proof.
  unfold missing_fields. rewrite missing_among_nil. split.
  - intros H field Hin. apply field_not_in_object. apply H. exact Hin.
  - intros H field Hin. apply field_not_in_object. apply H. exact Hin.
Qed.

(** The response to a request whose body is an object with every required
    field: the verdict when the line of the log is written, the internal
    error when writing it raises. *)
Lemma evaluate_transaction_complete str str_error utcnow format_value print
    (query : Provider) (request : Request) (payload : Payload) :
  is_json request = true ->
  get_json request = inr (BodyObject payload) ->
  (forall field, In field required_fields -> is_Some (payload !! field)) ->
  evaluate_transaction str str_error utcnow format_value print query request =
    match print (log_line format_value (payload_get payload "transaction_id" VNone)
                   (if (is_valid_transaction str payload query).1
                    then "approve" else "deny")
                   (is_valid_transaction str payload query).2) with
    | Some message => internal_error message
    | None =>
        (<["transaction_id" := payload_get payload "transaction_id" VNone]>
         (<["recommendation" :=
              VStr (if (is_valid_transaction str payload query).1
                    then "approve" else "deny")]>
         (<["reason" := VStr (is_valid_transaction str payload query).2]>
         {[ "timestamp" := VStr utcnow ]})), 200%Z)
    end.
Proof.
  intros Hjson Hbody Hall. unfold evaluate_transaction.
  rewrite Hjson, Hbody. simpl negb. cbv iota.
  apply missing_fields_object_nil in Hall. rewrite Hall.
  destruct (is_valid_transaction str payload query) as [b r]. reflexivity.
Qed.

(** The status code tells what happened to the request. It is 200 exactly
    when the body is an object with every required key and the line of the
    log is written; it is 400 exactly when the request is not JSON or when
    a required field is found missing in a body that can be searched (an
    object, an array or a string); every other request is answered 500:
    a body that does not parse, a body that is null or a number, an array
    or a string in which every name is found, a line of the log that
    cannot be written. *)
Theorem evaluate_transaction_status str str_error utcnow format_value print
    (query : Provider) (request : Request) :
  ((evaluate_transaction str str_error utcnow format_value print query request).2
     = 200%Z
   <-> is_json request = true
       /\ exists payload,
            get_json request = inr (BodyObject payload)
            /\ (forall field, In field required_fields -> is_Some (payload !! field))
            /\ print (log_line format_value
                        (payload_get payload "transaction_id" VNone)
                        (if (is_valid_transaction str payload query).1
                         then "approve" else "deny")
                        (is_valid_transaction str payload query).2) = None)
  /\ ((evaluate_transaction str str_error utcnow format_value print query request).2
        = 400%Z
      <-> is_json request = false
          \/ exists payload field,
               get_json request = inr payload
               /\ In field required_fields
               /\ field_not_in field payload = inr true)
  /\ ((evaluate_transaction str str_error utcnow format_value print query request).2
        = 500%Z
      <-> is_json request = true
          /\ ((exists message, get_json request = inl message)
              \/ (exists v, get_json request = inr (BodyValue v)
                            /\ forall s, v <> VStr s)
              \/ (exists payload,
                    get_json request = inr payload
                    /\ (forall p, payload <> BodyObject p)
                    /\ forall field, In field required_fields ->
                                     field_not_in field payload = inr false)
              \/ (exists payload message,
                    get_json request = inr (BodyObject payload)
                    /\ (forall field, In field required_fields ->
                                      is_Some (payload !! field))
                    /\ print (log_line format_value
                                (payload_get payload "transaction_id" VNone)
                                (if (is_valid_transaction str payload query).1
                                 then "approve" else "deny")
                                (is_valid_transaction str payload query).2)
                       = Some message))).
Proof.
  destruct (is_json request) eqn:Hjson.
  2: { unfold evaluate_transaction. rewrite Hjson. simpl.
       split; [| split]; split; intros H; try discriminate H;
         try reflexivity; try (apply proj1 in H; discriminate H).
       left. reflexivity. }
  destruct (get_json request) as [message | payload] eqn:Hbody.
  { unfold evaluate_transaction. rewrite Hjson, Hbody. simpl.
    split; [| split]; split; intros H; try discriminate H; try reflexivity.
    - destruct H as [_ (p & H & _)]. discriminate H.
    - destruct H as [H | (p & f & H & _)]; discriminate H.
    - split; [reflexivity |]. left. eauto. }
  destruct (missing_fields payload) as [e | missing] eqn:Hmissing.
  { (* the search of the fields raises *)
    assert (Hraise := missing_among_raises _ _ _ Hmissing).
    unfold evaluate_transaction. rewrite Hjson, Hbody. simpl negb. cbv iota.
    rewrite Hmissing. simpl.
    split; [| split]; split; intros H; try discriminate H; try reflexivity.
    - destruct H as [_ (p & [= ->] & _)].
      specialize (Hraise "transaction_id"). discriminate Hraise.
    - destruct H as [H | (p & f & [= <-] & _ & Hnot)]; [discriminate H |].
      rewrite (Hraise f) in Hnot. discriminate Hnot.
    - split; [reflexivity |]. right. left.
      specialize (Hraise "transaction_id").
      destruct payload as [p | items | v]; simpl in Hraise; try discriminate Hraise.
      exists v. split; [reflexivity |]. intros s ->. discriminate Hraise. }
  destruct missing as [| field rest].
  - (* nothing is missing *)
    assert (Hnone := proj1 (missing_among_nil _ _) Hmissing).
    destruct payload as [p | items | v].
    + assert (Hall : forall field, In field required_fields -> is_Some (p !! field)).
      { apply missing_fields_object_nil. exact Hmissing. }
      rewrite (evaluate_transaction_complete str str_error utcnow format_value
                 print query request p Hjson Hbody Hall).
      destruct (print _) as [message |] eqn:Hprint; simpl.
      * split; [| split]; split; intros H; try discriminate H; try reflexivity.
        -- destruct H as [_ (p' & [= <-] & _ & Hp)]. congruence.
        -- destruct H as [H | (p' & f & [= <-] & Hin & Hnot)]; [discriminate H |].
           rewrite (Hnone f Hin) in Hnot. discriminate Hnot.
        -- split; [reflexivity |]. right. right. right.
           exists p, message. repeat split; assumption.
      * split; [| split]; split; intros H; try discriminate H; try reflexivity.
        -- split; [reflexivity |]. exists p. repeat split; assumption.
        -- destruct H as [H | (p' & f & [= <-] & Hin & Hnot)]; [discriminate H |].
           rewrite (Hnone f Hin) in Hnot. discriminate Hnot.
        -- destruct H as [_ [(m & H) | [(v & H & _) | [(p' & [= <-] & Hp & _)
                                 | (p' & m & [= <-] & _ & Hp)]]]];
             try discriminate H; [exfalso; apply (Hp p); reflexivity | congruence].
    + unfold evaluate_transaction. rewrite Hjson, Hbody. simpl negb. cbv iota.
      rewrite Hmissing. simpl.
      split; [| split]; split; intros H; try discriminate H; try reflexivity.
      * destruct H as [_ (p' & H & _)]. discriminate H.
      * destruct H as [H | (p' & f & [= <-] & Hin & Hnot)]; [discriminate H |].
        rewrite (Hnone f Hin) in Hnot. discriminate Hnot.
      * split; [reflexivity |]. right. right. left.
        exists (BodyList items). repeat split; [discriminate | exact Hnone].
    + unfold evaluate_transaction. rewrite Hjson, Hbody. simpl negb. cbv iota.
      rewrite Hmissing. simpl.
      split; [| split]; split; intros H; try discriminate H; try reflexivity.
      * destruct H as [_ (p' & H & _)]. discriminate H.
      * destruct H as [H | (p' & f & [= <-] & Hin & Hnot)]; [discriminate H |].
        rewrite (Hnone f Hin) in Hnot. discriminate Hnot.
      * split; [reflexivity |]. right. right. left.
        exists (BodyValue v). repeat split; [discriminate | exact Hnone].
  - (* a field is missing *)
    assert (Hfield : In field required_fields
                     /\ field_not_in field payload = inr true).
    { apply (missing_among_spec _ _ _ Hmissing). left. reflexivity. }
    destruct Hfield as [Hin Hnot].
    unfold evaluate_transaction. rewrite Hjson, Hbody. simpl negb. cbv iota.
    rewrite Hmissing. simpl.
    split; [| split]; split; intros H; try discriminate H; try reflexivity.
    + destruct H as [_ (p & [= ->] & Hall & _)].
      specialize (Hall field Hin). apply field_not_in_object in Hall. congruence.
    + right. exists payload, field. repeat split; assumption.
    + destruct H as [_ [(m & H) | [(v & [= ->] & Hv) | [(p' & [= <-] & _ & Hp)
                             | (p' & m & [= ->] & Hall & _)]]]].
      * discriminate H.
      * destruct v; simpl in Hnot; try discriminate Hnot.
        exfalso. apply (Hv s). reflexivity.
      * rewrite (Hp field Hin) in Hnot. discriminate Hnot.
      * specialize (Hall field Hin). apply field_not_in_object in Hall. congruence.
Qed.

Lemma processing_error_not_approved (text : string) :
  "Processing error: " +:+ text <> "Transaction approved".
Proof. simpl. discriminate. Qed.

(** On an object with every required key whose line of the log is written,
    the recommendation is "approve" or "deny", it is "approve" exactly when
    the reason is "Transaction approved", the transaction identifier of the
    request is echoed and the timestamp is the time of the call. *)
Theorem recommendation_matches_reason str str_error utcnow format_value print
    (query : Provider) (request : Request) (payload : Payload) :
  is_json request = true ->
  get_json request = inr (BodyObject payload) ->
  (forall field, In field required_fields -> is_Some (payload !! field)) ->
  print (log_line format_value (payload_get payload "transaction_id" VNone)
           (if (is_valid_transaction str payload query).1 then "approve" else "deny")
           (is_valid_transaction str payload query).2) = None ->
  let body :=
    (evaluate_transaction str str_error utcnow format_value print query request).1 in
  (body !! "recommendation" = Some (VStr "approve")
   \/ body !! "recommendation" = Some (VStr "deny"))
  /\ (body !! "recommendation" = Some (VStr "approve")
      <-> body !! "reason" = Some (VStr "Transaction approved"))
  /\ body !! "transaction_id" = payload !! "transaction_id"
  /\ body !! "timestamp" = Some (VStr utcnow).
Proof.
  intros Hjson Hbody Hall Hprint body. subst body.
  rewrite (evaluate_transaction_complete str str_error utcnow format_value print
             query request payload Hjson Hbody Hall), Hprint. simpl.
  assert (Hid : Some (payload_get payload "transaction_id" VNone)
                = payload !! "transaction_id").
  { destruct (Hall "transaction_id") as [v Hv]; [simpl; tauto |].
    unfold payload_get. rewrite Hv. reflexivity. }
  rewrite lookup_insert_ne, lookup_insert_eq by discriminate.
  rewrite !lookup_insert_ne, lookup_insert_eq by discriminate.
  rewrite lookup_insert_eq.
  rewrite !lookup_insert_ne, lookup_singleton_eq by discriminate.
  split; [| split; [| split]]; try assumption; try reflexivity.
  - destruct (is_valid_transaction str payload query).1; tauto.
  - destruct (is_valid_transaction_cases str payload query)
      as [(v & _ & -> & Hin) | (e & _ & ->)]; simpl.
    + unfold chain_verdicts in Hin. simpl in Hin.
      destruct Hin as [<- | [<- | [<- | [<- | [<- | [<- | []]]]]]]; simpl;
        split; intros H; try discriminate H; reflexivity.
    + split; intros H; [discriminate H |].
      exfalso. apply (processing_error_not_approved (str e)). congruence.
Qed.

Lemma recommendation_matches_reason_witness :
  let body := (evaluate_transaction show_exn show_error "2024-01-01T00:00:00"
                 show_value printed (found no_row)
                 (json_request (request (VNum 7) (VNum 100)))).1 in
  (body !! "recommendation" = Some (VStr "approve")
   \/ body !! "recommendation" = Some (VStr "deny"))
  /\ (body !! "recommendation" = Some (VStr "approve")
      <-> body !! "reason" = Some (VStr "Transaction approved"))
  /\ body !! "transaction_id" = request (VNum 7) (VNum 100) !! "transaction_id"
  /\ body !! "timestamp" = Some (VStr "2024-01-01T00:00:00").
Proof.
  apply (recommendation_matches_reason show_exn show_error "2024-01-01T00:00:00"
           show_value printed (found no_row)
           (json_request (request (VNum 7) (VNum 100)))
           (request (VNum 7) (VNum 100))).
  - reflexivity.
  - reflexivity.
  - intros field Hin. simpl in Hin.
    destruct Hin as [<- | [<- | [<- | [<- | [<- | [<- | [<- | []]]]]]]];
      vm_compute; eauto.
  - reflexivity.
Defined.

(** A failure of the evaluation is not an HTTP error: on an object with
    every required key whose profile fetch raises, as long as the line of
    the log is written, the status is 200, the recommendation is "deny" and
    the reason carries the text of the exception. *)
Theorem provider_failure_is_a_denial str str_error utcnow format_value print
    (query : Provider) (request : Request) (payload : Payload) (e : exn) :
  is_json request = true ->
  get_json request = inr (BodyObject payload) ->
  (forall field, In field required_fields -> is_Some (payload !! field)) ->
  query (payload_get payload "user_id" (VNum 0)) = inl e ->
  print (log_line format_value (payload_get payload "transaction_id" VNone)
           "deny" ("Processing error: " +:+ str e)) = None ->
  evaluate_transaction str str_error utcnow format_value print query request =
    (<["transaction_id" := payload_get payload "transaction_id" VNone]>
     (<["recommendation" := VStr "deny"]>
     (<["reason" := VStr ("Processing error: " +:+ str e)]>
     {[ "timestamp" := VStr utcnow ]})), 200%Z).
Proof.
  intros Hjson Hbody Hall Hq Hprint.
  rewrite (evaluate_transaction_complete str str_error utcnow format_value print
             query request payload Hjson Hbody Hall).
  assert (Hverdict : is_valid_transaction str payload query
                     = (false, "Processing error: " +:+ str e)).
  { unfold is_valid_transaction, is_valid_transaction_body. rewrite Hq. reflexivity. }
  rewrite Hverdict. cbn [fst snd]. rewrite Hprint. reflexivity.
Qed.

Lemma provider_failure_is_a_denial_witness :
  evaluate_transaction show_exn show_error "2024-01-01T00:00:00" show_value printed
    (unreachable "connection refused")
    (json_request (request (VNum 7) (VNum 100))) =
    (<["transaction_id" := VNum 2342357]>
     (<["recommendation" := VStr "deny"]>
     (<["reason" := VStr "Processing error: connection refused"]>
     {[ "timestamp" := VStr "2024-01-01T00:00:00" ]})), 200%Z).
Proof.
  apply (provider_failure_is_a_denial show_exn show_error "2024-01-01T00:00:00"
           show_value printed (unreachable "connection refused")
           (json_request (request (VNum 7) (VNum 100)))
           (request (VNum 7) (VNum 100)) (ProviderError "connection refused")).
  - reflexivity.
  - reflexivity.
  - intros field Hin. simpl in Hin.
    destruct Hin as [<- | [<- | [<- | [<- | [<- | [<- | [<- | []]]]]]]];
      vm_compute; eauto.
  - reflexivity.
  - reflexivity.
Defined.

(** ** The amount in the rule chain *)

(** The amount is read by rule 3 only: on the same numeric profile, two
    numeric amounts get the same verdict unless one of them is denied for
    its value. *)
Theorem amount_matters_only_in_rule3 str (payload1 payload2 : Payload)
    (query : Provider) (user_profile : DataFrame) (amount1 amount2 : Q)
    (p : Spec.UserProfile) :
  payload_get payload1 "transaction_amount" (VNum 0) = VNum amount1 ->
  payload_get payload2 "transaction_amount" (VNum 0) = VNum amount2 ->
  query (payload_get payload1 "user_id" (VNum 0)) = inr user_profile ->
  query (payload_get payload2 "user_id" (VNum 0)) = inr user_profile ->
  resolve_profile user_profile = numeric p ->
  is_valid_transaction str payload1 query = is_valid_transaction str payload2 query
  \/ is_valid_transaction str payload1 query
       = (false, "Transaction denied due to high transaction value")
  \/ is_valid_transaction str payload2 query
       = (false, "Transaction denied due to high transaction value").
Proof.
  intros Ha1 Ha2 Hq1 Hq2 Hp.
  pose proof (numeric_verdict str payload1 query user_profile amount1 p Ha1 Hq1 Hp)
    as Hv1.
  pose proof (numeric_verdict str payload2 query user_profile amount2 p Ha2 Hq2 Hp)
    as Hv2.
  destruct Hv1; destruct Hv2; try tauto; contradiction.
Qed.

Lemma amount_matters_only_in_rule3_witness :
  is_valid_transaction show_exn (request (VNum 7) (VNum 100)) (found no_row)
  = is_valid_transaction show_exn (request (VNum 7) (VNum 25000)) (found no_row)
  \/ is_valid_transaction show_exn (request (VNum 7) (VNum 100)) (found no_row)
     = (false, "Transaction denied due to high transaction value")
  \/ is_valid_transaction show_exn (request (VNum 7) (VNum 25000)) (found no_row)
     = (false, "Transaction denied due to high transaction value").
Proof.
  apply (amount_matters_only_in_rule3 show_exn (request (VNum 7) (VNum 100))
           (request (VNum 7) (VNum 25000)) (found no_row) no_row 100 25000
           Spec.default_profile);
    vm_compute; reflexivity.
Defined.

(** Approval is kept when the amount decreases: on a numeric profile, an
    amount below an approved amount is approved too. *)
Theorem approval_downward_closed str (payload1 payload2 : Payload)
    (query : Provider) (user_profile : DataFrame) (amount1 amount2 : Q)
    (p : Spec.UserProfile) :
  payload_get payload1 "transaction_amount" (VNum 0) = VNum amount1 ->
  payload_get payload2 "transaction_amount" (VNum 0) = VNum amount2 ->
  query (payload_get payload1 "user_id" (VNum 0)) = inr user_profile ->
  query (payload_get payload2 "user_id" (VNum 0)) = inr user_profile ->
  resolve_profile user_profile = numeric p ->
  (amount1 <= amount2)%Q ->
  is_valid_transaction str payload2 query = (true, "Transaction approved") ->
  is_valid_transaction str payload1 query = (true, "Transaction approved").
Proof.
  intros Ha1 Ha2 Hq1 Hq2 Hp Hle Happroved.
  pose proof (numeric_verdict str payload1 query user_profile amount1 p Ha1 Hq1 Hp)
    as Hv1.
  pose proof (numeric_verdict str payload2 query user_profile amount2 p Ha2 Hq2 Hp)
    as Hv2.
  rewrite Happroved in Hv2.
  apply (evaluate_functional amount1 p); [exact Hv1 |].
  inversion Hv2 as [| | | | | H1 H2 H3 H4 H5].
  apply Spec.approve; try assumption.
  intros H. apply H3. unfold Spec.rule3 in *.
  apply (Qle_trans _ amount1); assumption.
Qed.

Lemma approval_downward_closed_witness :
  is_valid_transaction show_exn (request (VNum 7) (VNum 100)) (found no_row)
  = (true, "Transaction approved").
Proof.
  apply (approval_downward_closed show_exn (request (VNum 7) (VNum 100))
           (request (VNum 7) (VNum 19999)) (found no_row) no_row 100 19999
           Spec.default_profile);
    try (vm_compute; reflexivity).
  vm_compute. discriminate.
Defined.

(** A weekly average amount of zero or less makes approval unreachable:
    on a numeric profile every non-negative amount is denied. *)
Theorem nonpositive_average_amount_never_approves str (payload : Payload)
    (query : Provider) (user_profile : DataFrame) (transaction_amount : Q)
    (p : Spec.UserProfile) :
  payload_get payload "transaction_amount" (VNum 0) = VNum transaction_amount ->
  query (payload_get payload "user_id" (VNum 0)) = inr user_profile ->
  resolve_profile user_profile = numeric p ->
  (Spec.avg_transaction_amount_7d p <= 0)%Q ->
  (0 <= transaction_amount)%Q ->
  (is_valid_transaction str payload query).1 = false.
Proof.
  intros Ha Hq Hp Havg Hamount.
  pose proof (numeric_verdict str payload query user_profile transaction_amount p
                Ha Hq Hp) as Hv.
  destruct Hv; try reflexivity.
  exfalso.
  match goal with
  | H3 : ~ Spec.rule3 _ _ |- _ => apply H3
  end.
  unfold Spec.rule3. apply (Qle_trans _ 0); [| exact Hamount].
  rewrite <- (Qmult_0_r 2). apply Qmult_le_l; [reflexivity | exact Havg].
Qed.

Lemma nonpositive_average_amount_never_approves_witness :
  (is_valid_transaction show_exn (request (VNum 7) (VNum 5))
     (found (<["avg_transaction_amount_7d" := [VNum 0]]> no_row))).1 = false.
Proof.
  apply (nonpositive_average_amount_never_approves show_exn
           (request (VNum 7) (VNum 5))
           (found (<["avg_transaction_amount_7d" := [VNum 0]]> no_row))
           (<["avg_transaction_amount_7d" := [VNum 0]]> no_row) 5
           {| Spec.distinct_cards_2_weeks := 1;
              Spec.txns_by_user_last_1h_hour := 20;
              Spec.num_cbk_card_bin_7d_percent := 0;
              Spec.avg_txns_by_user_1h := 20;
              Spec.avg_transaction_amount_7d := 0;
              Spec.user_cbk_count_lifetime_percent := 0 |});
    try (vm_compute; reflexivity); vm_compute; discriminate.
Defined.

(** An amount that is not a number (null or text) is never approved on a
    numeric profile: an earlier rule denies it, or its comparison raises
    and the verdict is the processing error. *)
Theorem non_numeric_amount_never_approved str (payload : Payload)
    (query : Provider) (user_profile : DataFrame) (p : Spec.UserProfile) :
  query (payload_get payload "user_id" (VNum 0)) = inr user_profile ->
  resolve_profile user_profile = numeric p ->
  payload_get payload "transaction_amount" (VNum 0) = VNone
  \/ (exists s, payload_get payload "transaction_amount" (VNum 0) = VStr s) ->
  (is_valid_transaction str payload query).1 = false.
Proof.
  intros Hq Hp Hamount.
  rewrite (is_valid_transaction_found str payload query user_profile Hq), Hp.
  unfold rule_chain, numeric; simpl.
  destruct (negb (Qle_bool (Spec.user_cbk_count_lifetime_percent p) 0));
    simpl; [reflexivity |].
  destruct (Qle_bool (2 * Spec.avg_txns_by_user_1h p)
              (Spec.txns_by_user_last_1h_hour p)); simpl; [reflexivity |].
  destruct Hamount as [-> | [s ->]]; reflexivity.
Qed.

Lemma non_numeric_amount_never_approved_witness :
  (is_valid_transaction show_exn (request (VNum 7) (VStr "100")) (found no_row)).1
  = false.
Proof.
  apply (non_numeric_amount_never_approved show_exn (request (VNum 7) (VStr "100"))
           (found no_row) no_row Spec.default_profile).
  - reflexivity.
  - vm_compute. reflexivity.
  - right. exists "100". vm_compute. reflexivity.
Defined.

(** ** Resolution of the profile *)

Lemma safe_get_scalar_not_none (series : option (list pyval)) (dflt : pyval) :
  dflt <> VNone -> safe_get_scalar series dflt <> VNone.
Proof.
  intros Hd. destruct series as [[| x rows] |]; simpl; try exact Hd.
  destruct x; try exact Hd; discriminate.
Qed.

Lemma py_double_raises (v : pyval) (e : exn) :
  py_double v = inl e -> v = VNone.
Proof. destruct v; simpl; intros H; try discriminate H; reflexivity. Qed.

Lemma py_gt_raises (l r : pyval) (e : exn) :
  py_gt l r = inl e -> e = TypeError ">" l r.
Proof.
  destruct l, r; simpl; intros H; try discriminate H; injection H as <-; reflexivity.
Qed.

Lemma py_ge_raises (l r : pyval) (e : exn) :
  py_ge l r = inl e -> e = TypeError ">=" l r.
Proof.
  destruct l, r; simpl; intros H; try discriminate H; injection H as <-; reflexivity.
Qed.

Lemma py_double_not_none (v t : pyval) :
  py_double v = inr t -> t <> VNone.
Proof.
  destruct v; simpl; intros H; try discriminate H; injection H as <-; discriminate.
Qed.

(** A [TypeError] of the chain with a [None] operand, when no field is
    [None], is the one of rule 3 on a [None] amount. *)
Lemma rule_chain_none_operand (transaction_amount : pyval) (f : features)
    (op : string) (l r : pyval) :
  rule_chain transaction_amount f = inl (TypeError op l r) ->
  distinct_cards_2_weeks f <> VNone ->
  txns_by_user_last_1h_hour f <> VNone ->
  num_cbk_card_bin_7d_percent f <> VNone ->
  avg_txns_by_user_1h f <> VNone ->
  avg_transaction_amount_7d f <> VNone ->
  user_cbk_count_lifetime_percent f <> VNone ->
  l = VNone \/ r = VNone ->
  op = ">=" /\ l = VNone /\ transaction_amount = VNone.
Proof.
  destruct f as [cards txns bin avg_txns avg_amount cbk]. unfold rule_chain; simpl.
  intros Hchain Hcards Htxns Hbin Havg1 Havg2 Hcbk Hnone.
  destruct (py_gt cbk (VNum 0)) as [e1 | c1] eqn:H1; simpl in Hchain.
  { injection Hchain as ->. apply py_gt_raises in H1. injection H1 as -> -> ->.
    destruct Hnone as [Hn | Hn]; [contradiction | discriminate Hn]. }
  destruct c1; [discriminate Hchain |].
  destruct (py_double avg_txns) as [e2 | t2] eqn:H2; simpl in Hchain.
  { apply py_double_raises in H2. contradiction. }
  destruct (py_ge txns t2) as [e2 | c2] eqn:H2'; simpl in Hchain.
  { injection Hchain as ->. apply py_ge_raises in H2'. injection H2' as -> -> ->.
    apply py_double_not_none in H2.
    destruct Hnone as [Hn | Hn]; contradiction. }
  destruct c2; [discriminate Hchain |].
  destruct (py_double avg_amount) as [e3 | t3] eqn:H3; simpl in Hchain.
  { apply py_double_raises in H3. contradiction. }
  destruct (py_ge transaction_amount t3) as [e3 | c3] eqn:H3'; simpl in Hchain.
  { injection Hchain as ->. apply py_ge_raises in H3'. injection H3' as -> -> ->.
    apply py_double_not_none in H3.
    destruct Hnone as [Hn | Hn]; [| contradiction].
    repeat split; assumption. }
  destruct c3; [discriminate Hchain |].
  destruct (py_ge cards (VNum 3)) as [e4 | c4] eqn:H4; simpl in Hchain.
  { injection Hchain as ->. apply py_ge_raises in H4. injection H4 as -> -> ->.
    destruct Hnone as [Hn | Hn]; [contradiction | discriminate Hn]. }
  destruct c4; [discriminate Hchain |].
  destruct (py_ge bin (VNum (1 # 2))) as [e5 | c5] eqn:H5; simpl in Hchain.
  { injection Hchain as ->. apply py_ge_raises in H5. injection H5 as -> -> ->.
    destruct Hnone as [Hn | Hn]; [contradiction | discriminate Hn]. }
  destruct c5; discriminate Hchain.
Qed.

(** After resolution no field is [None]: a missing column, an empty column
    and a [None] first cell give the default of the field, any other first
    cell is used as it is. So a null in the profile is never the operand of
    a failing comparison: when an evaluation ends on the [TypeError] of an
    operator applied to [None], the operator is the [>=] of rule 3 and the
    [None] is the amount of the request. *)
Theorem resolved_fields_never_none (payload : Payload) (query : Provider) :
  (forall user_profile : DataFrame,
     distinct_cards_2_weeks (resolve_profile user_profile) <> VNone
     /\ txns_by_user_last_1h_hour (resolve_profile user_profile) <> VNone
     /\ num_cbk_card_bin_7d_percent (resolve_profile user_profile) <> VNone
     /\ avg_txns_by_user_1h (resolve_profile user_profile) <> VNone
     /\ avg_transaction_amount_7d (resolve_profile user_profile) <> VNone
     /\ user_cbk_count_lifetime_percent (resolve_profile user_profile) <> VNone)
  /\ forall (op : string) (l r : pyval),
       is_valid_transaction_body payload query = inl (TypeError op l r) ->
       (exists user_profile,
          query (payload_get payload "user_id" (VNum 0)) = inr user_profile) ->
       l = VNone \/ r = VNone ->
       op = ">=" /\ l = VNone
       /\ payload_get payload "transaction_amount" (VNum 0) = VNone.
Proof.
  assert (Hfields : forall user_profile : DataFrame,
     distinct_cards_2_weeks (resolve_profile user_profile) <> VNone
     /\ txns_by_user_last_1h_hour (resolve_profile user_profile) <> VNone
     /\ num_cbk_card_bin_7d_percent (resolve_profile user_profile) <> VNone
     /\ avg_txns_by_user_1h (resolve_profile user_profile) <> VNone
     /\ avg_transaction_amount_7d (resolve_profile user_profile) <> VNone
     /\ user_cbk_count_lifetime_percent (resolve_profile user_profile) <> VNone).
  { intros user_profile. unfold resolve_profile; simpl.
    repeat split; apply safe_get_scalar_not_none; discriminate. }
  split; [exact Hfields |].
  intros op l r Hbody [user_profile Hq] Hnone.
  unfold is_valid_transaction_body in Hbody. rewrite Hq in Hbody. simpl in Hbody.
  destruct (Hfields user_profile) as (H1 & H2 & H3 & H4 & H5 & H6).
  apply (rule_chain_none_operand _ _ _ _ _ Hbody H1 H2 H3 H4 H5 H6 Hnone).
Qed.

Lemma safe_get_scalar_first_cell (user_profile : DataFrame) (col : string)
    (dflt : pyval) :
  safe_get_scalar (frame_get user_profile col) dflt =
    match first_cell user_profile col with
    | Some VNone | None => dflt
    | Some x => x
    end.
Proof.
  unfold frame_get, first_cell.
  destruct (user_profile !! col) as [[| x rows] |]; reflexivity.
Qed.

(** Only the first row counts, and only the six columns: two answers of the
    provider whose six columns agree on their first cell give the same
    verdict, whatever their other rows and other columns hold. *)
Theorem only_first_row_is_read str (payload : Payload) (query1 query2 : Provider)
    (user_profile1 user_profile2 : DataFrame) :
  query1 (payload_get payload "user_id" (VNum 0)) = inr user_profile1 ->
  query2 (payload_get payload "user_id" (VNum 0)) = inr user_profile2 ->
  (forall col, In col profile_columns ->
     first_cell user_profile1 col = first_cell user_profile2 col) ->
  is_valid_transaction str payload query1 = is_valid_transaction str payload query2.
Proof.
  intros Hq1 Hq2 Hcells.
  rewrite (is_valid_transaction_found str payload query1 _ Hq1).
  rewrite (is_valid_transaction_found str payload query2 _ Hq2).
  assert (Hresolve : resolve_profile user_profile1 = resolve_profile user_profile2).
  { unfold resolve_profile. rewrite !safe_get_scalar_first_cell.
    rewrite !Hcells by (simpl; tauto). reflexivity. }
  rewrite Hresolve. reflexivity.
Qed.

Lemma only_first_row_is_read_witness :
  is_valid_transaction show_exn (request (VNum 7) (VNum 100))
    (found (<["distinct_cards_2_weeks" := [VNum 2; VNum 9]]> no_row))
  = is_valid_transaction show_exn (request (VNum 7) (VNum 100))
      (found (<["merchant_count" := [VNum 50]]>
              (<["distinct_cards_2_weeks" := [VNum 2]]> no_row))).
Proof.
  apply (only_first_row_is_read show_exn (request (VNum 7) (VNum 100))
           (found (<["distinct_cards_2_weeks" := [VNum 2; VNum 9]]> no_row))
           (found (<["merchant_count" := [VNum 50]]>
                   (<["distinct_cards_2_weeks" := [VNum 2]]> no_row)))
           (<["distinct_cards_2_weeks" := [VNum 2; VNum 9]]> no_row)
           (<["merchant_count" := [VNum 50]]>
            (<["distinct_cards_2_weeks" := [VNum 2]]> no_row))).
  - reflexivity.
  - reflexivity.
  - intros col Hin. simpl in Hin.
    destruct Hin as [<- | [<- | [<- | [<- | [<- | [<- | []]]]]]];
      vm_compute; reflexivity.
Defined.

(** NaN switches every rule off: a profile whose six first cells are NaN is
    approved for every amount that is a number or NaN. *)
Theorem nan_profile_is_approved str (payload : Payload) (query : Provider)
    (user_profile : DataFrame) :
  query (payload_get payload "user_id" (VNum 0)) = inr user_profile ->
  (forall col, In col profile_columns -> first_cell user_profile col = Some VNaN) ->
  (payload_get payload "transaction_amount" (VNum 0) = VNaN
   \/ exists transaction_amount : Q,
        payload_get payload "transaction_amount" (VNum 0) = VNum transaction_amount) ->
  is_valid_transaction str payload query = (true, "Transaction approved").
Proof.
  intros Hq Hcells Hamount.
  rewrite (is_valid_transaction_found str payload query user_profile Hq).
  unfold rule_chain, resolve_profile; simpl.
  rewrite !safe_get_scalar_first_cell.
  rewrite !Hcells by (simpl; tauto). simpl.
  destruct Hamount as [-> | [a ->]]; reflexivity.
Qed.

Lemma nan_profile_is_approved_witness :
  is_valid_transaction show_exn (request (VNum 7) (VNum 1000000))
    (found (one_row (Features VNaN VNaN VNaN VNaN VNaN VNaN)))
  = (true, "Transaction approved").
Proof.
  apply (nan_profile_is_approved show_exn (request (VNum 7) (VNum 1000000))
           (found (one_row (Features VNaN VNaN VNaN VNaN VNaN VNaN)))
           (one_row (Features VNaN VNaN VNaN VNaN VNaN VNaN))).
  - reflexivity.
  - intros col Hin. simpl in Hin.
    destruct Hin as [<- | [<- | [<- | [<- | [<- | [<- | []]]]]]];
      vm_compute; reflexivity.
  - right. exists 1000000%Q. vm_compute. reflexivity.
Defined.

(** ** The runner against the service *)

Lemma first_cell_first_or_zero (user_profile : DataFrame) (col : string) (x : pyval) :
  first_cell user_profile col = Some x -> first_or_zero (user_profile !! col) = x.
Proof.
  unfold first_cell, first_or_zero.
  destruct (user_profile !! col) as [[| y rows] |]; intros H;
    try discriminate H. injection H as ->. reflexivity.
Qed.

Lemma first_cell_safe_get_scalar (user_profile : DataFrame) (col : string)
    (x dflt : pyval) :
  first_cell user_profile col = Some x -> x <> VNone ->
  safe_get_scalar (frame_get user_profile col) dflt = x.
Proof.
  intros Hcell Hx. rewrite safe_get_scalar_first_cell, Hcell.
  destruct x; try reflexivity. contradiction.
Qed.

(** When its five columns hold a value in the first row, the runner reads
    what the service reads. *)
Lemma runner_reads_resolved (user_profile : DataFrame) :
  (forall col, In col runner_columns ->
     exists x, first_cell user_profile col = Some x /\ x <> VNone) ->
  first_or_zero (user_profile !! "distinct_cards_2_weeks")
    = distinct_cards_2_weeks (resolve_profile user_profile)
  /\ first_or_zero (user_profile !! "txns_by_user_last_1h_hour")
    = txns_by_user_last_1h_hour (resolve_profile user_profile)
  /\ first_or_zero (user_profile !! "num_cbk_card_bin_7d_percent")
    = num_cbk_card_bin_7d_percent (resolve_profile user_profile)
  /\ first_or_zero (user_profile !! "avg_txns_by_user_1h")
    = avg_txns_by_user_1h (resolve_profile user_profile)
  /\ first_or_zero (user_profile !! "user_cbk_count_lifetime_percent")
    = user_cbk_count_lifetime_percent (resolve_profile user_profile).
Proof.
  intros Hcells. unfold resolve_profile; simpl.
  repeat split.
  all: match goal with
       | |- first_or_zero (_ !! ?col) = _ =>
           destruct (Hcells col) as (x & Hx & Hnone); [simpl; tauto |];
           rewrite (first_cell_first_or_zero _ _ _ Hx),
                   (first_cell_safe_get_scalar _ _ _ _ Hx Hnone);
           reflexivity
       end.
Qed.

(** The outcome of the comparison of rule 3. *)
Lemma rule_chain_skipping_rule3 (transaction_amount : pyval) (f : features)
    (user_profile : DataFrame) :
  first_or_zero (user_profile !! "distinct_cards_2_weeks") = distinct_cards_2_weeks f ->
  first_or_zero (user_profile !! "txns_by_user_last_1h_hour")
    = txns_by_user_last_1h_hour f ->
  first_or_zero (user_profile !! "num_cbk_card_bin_7d_percent")
    = num_cbk_card_bin_7d_percent f ->
  first_or_zero (user_profile !! "avg_txns_by_user_1h") = avg_txns_by_user_1h f ->
  first_or_zero (user_profile !! "user_cbk_count_lifetime_percent")
    = user_cbk_count_lifetime_percent f ->
  (t3 <- py_double (avg_transaction_amount_7d f) ;; py_ge transaction_amount t3)
    = inr false ->
  runner_chain user_profile = rule_chain transaction_amount f.
Proof.
  intros H1 H2 H3 H4 H5 Hrule3.
  unfold runner_chain, rule_chain. rewrite H1, H2, H3, H4, H5.
  destruct f as [cards txns bin avg_txns avg_amount cbk]; simpl in *.
  destruct (py_gt cbk (VNum 0)) as [e | []]; simpl; try reflexivity.
  destruct (py_double avg_txns) as [e | t2]; simpl; try reflexivity.
  destruct (py_ge txns t2) as [e | []]; simpl; try reflexivity.
  destruct (py_double avg_amount) as [e | t3]; simpl in *; [discriminate Hrule3 |].
  rewrite Hrule3. simpl. reflexivity.
Qed.

Lemma rule_chain_approved_rule3 (transaction_amount : pyval) (f : features)
    (reason : string) :
  rule_chain transaction_amount f = inr (true, reason) ->
  (t3 <- py_double (avg_transaction_amount_7d f) ;; py_ge transaction_amount t3)
    = inr false.
Proof.
  destruct f as [cards txns bin avg_txns avg_amount cbk]. unfold rule_chain; simpl.
  destruct (py_gt cbk (VNum 0)) as [e | []]; simpl; try discriminate.
  destruct (py_double avg_txns) as [e | t2]; simpl; try discriminate.
  destruct (py_ge txns t2) as [e | []]; simpl; try discriminate.
  destruct (py_double avg_amount) as [e | t3]; simpl; try discriminate.
  destruct (py_ge transaction_amount t3) as [e | []]; simpl; try discriminate.
  reflexivity.
Qed.

(** The runner is at least as permissive as the service on the rows both
    can read: when the five columns of the runner hold a value in the first
    row and the provider gives user 7 the rows it gives the user of the
    request, a transaction the service approves is approved by the runner. *)
Theorem service_approval_implies_runner_approval str (payload : Payload)
    (query : Provider) (user_profile : DataFrame) :
  query (payload_get payload "user_id" (VNum 0)) = inr user_profile ->
  query (VNum 7) = inr user_profile ->
  (forall col, In col runner_columns ->
     exists x, first_cell user_profile col = Some x /\ x <> VNone) ->
  is_valid_transaction str payload query = (true, "Transaction approved") ->
  main query = Some (true, "Transaction approved").
Proof.
  intros Hq Hq7 Hcells Happroved.
  rewrite (is_valid_transaction_found str payload query user_profile Hq) in Happroved.
  destruct (rule_chain _ _) as [e | v] eqn:Hchain; [discriminate Happroved |].
  subst v.
  destruct (runner_reads_resolved user_profile Hcells) as (H1 & H2 & H3 & H4 & H5).
  unfold main. rewrite Hq7. simpl.
  rewrite (rule_chain_skipping_rule3 _ _ _ H1 H2 H3 H4 H5
             (rule_chain_approved_rule3 _ _ _ Hchain)).
  rewrite Hchain. reflexivity.
Qed.

Lemma service_approval_implies_runner_approval_witness :
  main (found (one_row (numeric Spec.default_profile)))
  = Some (true, "Transaction approved").
Proof.
  apply (service_approval_implies_runner_approval show_exn
           (request (VNum 7) (VNum 100))
           (found (one_row (numeric Spec.default_profile)))
           (one_row (numeric Spec.default_profile))).
  - reflexivity.
  - reflexivity.
  - intros col Hin. simpl in Hin.
    destruct Hin as [<- | [<- | [<- | [<- | [<- | []]]]]];
      (eexists; split; [vm_compute; reflexivity | discriminate]).
  - vm_compute. reflexivity.
Defined.

(** Apart from rule 3 the two chains are one: under the same conditions,
    when the comparison of rule 3 is false the runner returns the verdict of
    the service, and it ends on an exception exactly when the service
    returns a processing error. *)
Theorem runner_agrees_outside_rule3 str (payload : Payload) (query : Provider)
    (user_profile : DataFrame) :
  query (payload_get payload "user_id" (VNum 0)) = inr user_profile ->
  query (VNum 7) = inr user_profile ->
  (forall col, In col runner_columns ->
     exists x, first_cell user_profile col = Some x /\ x <> VNone) ->
  (t3 <- py_double (avg_transaction_amount_7d (resolve_profile user_profile)) ;;
   py_ge (payload_get payload "transaction_amount" (VNum 0)) t3) = inr false ->
  match main query with
  | Some verdict => is_valid_transaction str payload query = verdict
  | None => exists e, is_valid_transaction str payload query
                      = (false, "Processing error: " +:+ str e)
  end.
Proof.
  intros Hq Hq7 Hcells Hrule3.
  rewrite (is_valid_transaction_found str payload query user_profile Hq).
  destruct (runner_reads_resolved user_profile Hcells) as (H1 & H2 & H3 & H4 & H5).
  unfold main. rewrite Hq7. simpl.
  rewrite (rule_chain_skipping_rule3 _ _ _ H1 H2 H3 H4 H5 Hrule3).
  destruct (rule_chain _ _) as [e | v]; [exists e |]; reflexivity.
Qed.

Lemma runner_agrees_outside_rule3_witness :
  match main (found (<["distinct_cards_2_weeks" := [VNum 3]]>
                     (one_row (numeric Spec.default_profile)))) with
  | Some verdict =>
      is_valid_transaction show_exn (request (VNum 7) (VNum 100))
        (found (<["distinct_cards_2_weeks" := [VNum 3]]>
                (one_row (numeric Spec.default_profile)))) = verdict
  | None =>
      exists e,
        is_valid_transaction show_exn (request (VNum 7) (VNum 100))
          (found (<["distinct_cards_2_weeks" := [VNum 3]]>
                  (one_row (numeric Spec.default_profile))))
        = (false, "Processing error: " +:+ show_exn e)
  end.
Proof.
  apply (runner_agrees_outside_rule3 show_exn (request (VNum 7) (VNum 100))
           (found (<["distinct_cards_2_weeks" := [VNum 3]]>
                   (one_row (numeric Spec.default_profile))))
           (<["distinct_cards_2_weeks" := [VNum 3]]>
            (one_row (numeric Spec.default_profile)))).
  - reflexivity.
  - reflexivity.
  - intros col Hin. simpl in Hin.
    destruct Hin as [<- | [<- | [<- | [<- | [<- | []]]]]];
      (eexists; split; [vm_compute; reflexivity | discriminate]).
  - vm_compute. reflexivity.
Defined.

(** The zero default of the runner denies: when the column of the hourly
    average is missing or empty, a chargeback ratio that is not positive and
    a non-negative count of the last hour are denied for volume. *)
Theorem runner_missing_average_denies (query : Provider) (user_profile : DataFrame)
    (c t : Q) :
  query (VNum 7) = inr user_profile ->
  first_cell user_profile "avg_txns_by_user_1h" = None ->
  first_or_zero (user_profile !! "user_cbk_count_lifetime_percent") = VNum c ->
  first_or_zero (user_profile !! "txns_by_user_last_1h_hour") = VNum t ->
  (c <= 0)%Q -> (0 <= t)%Q ->
  main query = Some (false, "Transaction denied due to high transaction volume").
Proof.
  intros Hq Havg Hc Ht Hc0 Ht0.
  assert (Hzero : first_or_zero (user_profile !! "avg_txns_by_user_1h") = VNum 0).
  { unfold first_cell in Havg. unfold first_or_zero.
    destruct (user_profile !! "avg_txns_by_user_1h") as [[| x rows] |];
      try reflexivity. discriminate Havg. }
  unfold main. rewrite Hq. simpl. unfold runner_chain.
  rewrite Hzero, Hc, Ht, py_gt_zero.
  assert (H1 : negb (Qle_bool c 0) = false).
  { apply gt_zero_false. apply Qle_not_lt, Hc0. }
  rewrite H1. simpl.
  assert (H2 : Qle_bool (2 * 0) t = true).
  { apply Qle_bool_true. exact Ht0. }
  rewrite H2. reflexivity.
Qed.

Lemma runner_missing_average_denies_witness :
  main (found (<["txns_by_user_last_1h_hour" := [VNum 3]]> no_row))
  = Some (false, "Transaction denied due to high transaction volume").
Proof.
  apply (runner_missing_average_denies
           (found (<["txns_by_user_last_1h_hour" := [VNum 3]]> no_row))
           (<["txns_by_user_last_1h_hour" := [VNum 3]]> no_row) 0 3).
  - reflexivity.
  - vm_compute. reflexivity.
  - vm_compute. reflexivity.
  - vm_compute. reflexivity.
  - discriminate.
  - discriminate.
Defined.
